(** * The mining dashboard of the annotation tool (app/routes/mine.tsx)

    A shallow embedding of the [Mine] route component: the job selector run
    by [initData], the [startMining] handler, the polling effect with its
    tick callback, and the React bookkeeping that ties them together
    (state hooks, refs, the effect keyed on [isMining, jobId], interval
    timers and requests in flight). *)

From Stdlib Require Import QArith Qabs Lqa Ascii.
From stdpp Require Import gmap strings list.

Open Scope Z_scope.

(** ** JavaScript numbers

    A JS number is a double.  The component only compares numbers, takes
    minima and maxima and subtracts the constant 0.5 from a value of
    [0,100]; all of these are exact on doubles, so a number is modelled as
    [NaN], an infinity, or a rational.  (Signed zeros are not told apart:
    nothing here divides.) *)

Inductive num : Type :=
  | NaN
  | NegInf
  | Fin (q : Q)
  | PosInf.

Definition zero : num := Fin 0.
Definition one : num := Fin 1.
Definition hundred : num := Fin 100.
Definition half : num := Fin (1 # 2).

Definition ofZ (z : Z) : num := Fin (inject_Z z).

(** [a <= b] of JS: false as soon as one side is [NaN]. *)
Definition num_le (a b : num) : bool :=
  match a, b with
  | NaN, _ | _, NaN => false
  | NegInf, _ => true
  | _, PosInf => true
  | Fin x, Fin y => Qle_bool x y
  | Fin _, NegInf => false
  | PosInf, _ => false
  end.

(** [a < b] of JS. *)
Definition num_lt (a b : num) : bool :=
  match a, b with
  | NaN, _ | _, NaN => false
  | NegInf, NegInf => false
  | NegInf, _ => true
  | PosInf, _ => false
  | Fin x, Fin y => negb (Qle_bool y x)
  | Fin _, PosInf => true
  | Fin _, NegInf => false
  end.

Definition num_ge (a b : num) : bool := num_le b a.
Definition num_gt (a b : num) : bool := num_lt b a.

(** [Math.max(a, b)] and [Math.min(a, b)] on numbers: [NaN] is contagious. *)
Definition Math_max (a b : num) : num :=
  match a, b with
  | NaN, _ | _, NaN => NaN
  | _, _ => if num_lt a b then b else a
  end.

Definition Math_min (a b : num) : num :=
  match a, b with
  | NaN, _ | _, NaN => NaN
  | _, _ => if num_lt b a then b else a
  end.

(** [a - b]. *)
Definition num_sub (a b : num) : num :=
  match a, b with
  | NaN, _ | _, NaN => NaN
  | PosInf, PosInf | NegInf, NegInf => NaN
  | PosInf, _ | _, NegInf => PosInf
  | NegInf, _ | _, PosInf => NegInf
  | Fin x, Fin y => Fin (x - y)
  end.

(** [Math.abs]. *)
Definition Math_abs (a : num) : num :=
  match a with
  | NaN => NaN
  | NegInf | PosInf => PosInf
  | Fin x => Fin (Qabs x)
  end.

(** ** JavaScript values

    The values a JSON body can hold that the component looks at:
    [undefined] stands for a field that is absent.  Objects are finite maps
    from property names to values (arrays are not modelled). *)

#[warnings="-register-all"]
Inductive jsval : Type :=
  | JUndefined
  | JNull
  | JBool (b : bool)
  | JNum (n : num)
  | JStr (s : string)
  | JObj (fields : gmap string jsval).

(** Truthiness ([if (v)], [v && ...], [v || ...]). *)
Definition truthy (v : jsval) : bool :=
  match v with
  | JUndefined | JNull => false
  | JBool b => b
  | JNum NaN => false
  | JNum (Fin q) => negb (Qeq_bool q 0)
  | JNum _ => true
  | JStr s => negb (String.eqb s "")
  | JObj _ => true
  end.

(** [a || b], [a ?? b], [v != null]. *)
Definition js_or (a b : jsval) : jsval := if truthy a then a else b.

Definition nullish (v : jsval) : bool :=
  match v with
  | JUndefined | JNull => true
  | _ => false
  end.

Definition js_coalesce (a b : jsval) : jsval := if nullish a then b else a.

(** [typeof v === "number"], [typeof v === "object"] ([null] included). *)
Definition is_number (v : jsval) : bool :=
  match v with JNum _ => true | _ => false end.

Definition is_object (v : jsval) : bool :=
  match v with JObj _ | JNull => true | _ => false end.

(** [v.k].  Every access of the component is made on a value already tested
    truthy, so the [TypeError] of a property read on [null] or [undefined]
    arises only in [startMining] (see [startMining_resolved]); on those two
    values [prop] answers [None].  None of the names read here is an own or
    inherited property of a string, number or boolean. *)
Definition prop (v : jsval) (k : string) : option jsval :=
  match v with
  | JUndefined | JNull => None
  | JObj m => Some (default JUndefined (m !! k))
  | _ => Some JUndefined
  end.

(** [v.k] on a value known to be truthy. *)
Definition get (v : jsval) (k : string) : jsval :=
  default JUndefined (prop v k).

(** [v === "s"]. *)
Definition is_str (v : jsval) (s : string) : bool :=
  match v with JStr t => String.eqb t s | _ => false end.

(** [s.toLowerCase()] on the letters A-Z (the only code points whose lower
    case is one of the letters of "sampling"), and [s.includes(t)]. *)
Definition lower_ascii (c : Ascii.ascii) : Ascii.ascii :=
  let n := Ascii.N_of_ascii c in
  if (65 <=? n)%N && (n <=? 90)%N then Ascii.ascii_of_N (n + 32) else c.

Fixpoint toLowerCase (s : string) : string :=
  match s with
  | EmptyString => EmptyString
  | String c s' => String (lower_ascii c) (toLowerCase s')
  end.

Fixpoint includes (s t : string) : bool :=
  String.prefix t s
  || match s with
     | EmptyString => false
     | String _ s' => includes s' t
     end.

(** [parseInt(s)] without a radix: leading white space, a sign, a [0x]
    prefix, then the longest run of digits; [NaN] when there is none.
    (Integers beyond 2^53, which a double rounds, are kept exact.) *)
Definition is_space (c : Ascii.ascii) : bool :=
  let n := Ascii.N_of_ascii c in
  (n =? 32)%N || ((9 <=? n)%N && (n <=? 13)%N).

Fixpoint skip_spaces (s : string) : string :=
  match s with
  | String c s' => if is_space c then skip_spaces s' else s
  | EmptyString => s
  end.

Definition digit_value (radix : N) (c : Ascii.ascii) : option N :=
  let n := Ascii.N_of_ascii c in
  let d := if (48 <=? n)%N && (n <=? 57)%N then Some (n - 48)%N
           else if (97 <=? n)%N && (n <=? 122)%N then Some (n - 87)%N
           else if (65 <=? n)%N && (n <=? 90)%N then Some (n - 55)%N
           else None in
  match d with
  | Some v => if (v <? radix)%N then Some v else None
  | None => None
  end.

Fixpoint digits (radix : N) (s : string) (acc : option N) : option N :=
  match s with
  | String c s' =>
      match digit_value radix c with
      | Some d => digits radix s' (Some (radix * default 0 acc + d)%N)
      | None => acc
      end
  | EmptyString => acc
  end.

Definition parseInt (s : string) : num :=
  let s := skip_spaces s in
  let '(negative, s) :=
    match s with
    | String "-"%char s' => (true, s')
    | String "+"%char s' => (false, s')
    | _ => (false, s)
    end in
  let '(radix, s) :=
    match s with
    | String "0"%char (String "x"%char s')
    | String "0"%char (String "X"%char s') => (16%N, s')
    | _ => (10%N, s)
    end in
  match digits radix s None with
  | Some n => ofZ (if negative then - Z.of_N n else Z.of_N n)
  | None => NaN
  end.

(** [a === b] on numbers. *)
Definition num_eq (a b : num) : bool :=
  match a, b with
  | Fin x, Fin y => Qeq_bool x y
  | PosInf, PosInf | NegInf, NegInf => true
  | _, _ => false
  end.

(** ** What the browser and the deployment provide *)

Record Host : Type := {
  (** [Number(s)] on a string (the StringToNumber of the language). *)
  StringToNumber : string -> num;
  (** [integrationAPI.defaults.baseURL], as a template literal prints it. *)
  baseURL : string;
  (** The [TypeError] thrown by a property read on [null] or [undefined]. *)
  TypeError : jsval;
  (** [dayjs(text).valueOf()]: the instant a timestamp text denotes, in
      milliseconds since the epoch; [None] for an invalid date. *)
  dayjs_valueOf : string -> option Z
}.

(** ** The state of the component *)

(** The eleven parameter fields of the form; all hold the text of an input. *)
Record Form : Type := {
  minPatternSize : string;
  maxPatternSize : string;
  minNeighborhoodSize : string;
  maxNeighborhoodSize : string;
  nNeighborhoods : string;
  nTrials : string;
  outBatchSize : string;
  searchStrategy : string;
  sampleMethod : string;
  graphType : string;
  outputFormat : string
}.

Record MiningResult : Type := {
  downloadUrl : jsval;
  patternsCount : jsval
}.

Record PhaseDetail : Type := {
  current : num;
  total : num;
  phase : string
}.

(** An entry of the history served by the loader, with the three fields
    [initData] reads. *)
Record JobRecord : Type := {
  job_id : string;
  writer_type : string;
  imported_on : string
}.

(** The body of the answer to [GET api/history]; [None] is a field that is
    absent or [null]. *)
Record HistoryResponse : Type := {
  selected_job_id : option string;
  history : option (list JobRecord)
}.

(** How the history request ends; a body that is not an object makes the
    destructuring of line 79 throw and is handled as a rejection is. *)
Inductive HistoryOutcome : Type :=
  | HistoryRejected (e : jsval)
  | HistoryResolved (r : HistoryResponse).

(** Identifiers of interval timers ([setInterval] never returns 0). *)
Abbreviation timer := positive.

(** The [useState] cells ([history] and [loadingHistory], which only the
    view reads, are left out). *)
Record Hooks : Type := {
  jobId : string;
  form : Form;
  isMining : bool;
  miningResult : option MiningResult;
  miningProgress : num;
  miningStatus : jsval;
  phaseDetail : option PhaseDetail;
  pollInterval : option timer
}.

(** The [useRef] cells: shared, read at the time of use. *)
Record Refs : Type := {
  pollIntervalRef : option timer;
  completedShownRef : bool;
  maxProgressSeenRef : num
}.

Inductive Toast : Type :=
  | ToastError (title : string) (description : option jsval)
  | ToastSuccess (title : string).

Inductive Log : Type :=
  | ConsoleError (label : string) (e : jsval)
  | ConsoleWarn (label : string) (e : jsval).

Inductive Request : Type :=
  | Post (url : string) (formData : list (string * string))
  | Get (url : string).

(** What [startMining] captured from the render it was created in and uses
    again after its [await]. *)
Record StartClosure : Type := {
  c_jobId : string;
  c_pollInterval : option timer
}.

(** A status request in flight: the interval that issued it and the job id
    the tick callback of that interval closed over. *)
Record Tick : Type := {
  t_timer : timer;
  t_jobId : string
}.

(** Everything outside the hooks: what the user was shown, what went over the
    network, the live intervals (with the job id their callback closed over),
    the requests not yet answered (status requests, start requests, and
    history requests with the [urlJobId] their [initData] read), and the
    dependencies and [intervalId] of the last run of the polling effect. *)
Record World : Type := {
  toasts : list Toast;
  console : list Log;
  requests : list Request;
  timers : list Tick;
  nextTimer : timer;
  polls : list Tick;
  posts : list StartClosure;
  fetches : list (option string);
  eff_deps : bool * string;
  eff_intervalId : option timer
}.

Record State : Type := {
  hooks : Hooks;
  refs : Refs;
  world : World
}.

Definition with_hooks (f : Hooks -> Hooks) (s : State) : State :=
  {| hooks := f (hooks s); refs := refs s; world := world s |}.
Definition with_refs (f : Refs -> Refs) (s : State) : State :=
  {| hooks := hooks s; refs := f (refs s); world := world s |}.
Definition with_world (f : World -> World) (s : State) : State :=
  {| hooks := hooks s; refs := refs s; world := f (world s) |}.

(** The setters of the hooks. *)
Definition setJobId (v : string) : State -> State :=
  with_hooks (fun h =>
    {| jobId := v; form := form h; isMining := isMining h;
       miningResult := miningResult h; miningProgress := miningProgress h;
       miningStatus := miningStatus h; phaseDetail := phaseDetail h;
       pollInterval := pollInterval h |}).
Definition setForm (v : Form) : State -> State :=
  with_hooks (fun h =>
    {| jobId := jobId h; form := v; isMining := isMining h;
       miningResult := miningResult h; miningProgress := miningProgress h;
       miningStatus := miningStatus h; phaseDetail := phaseDetail h;
       pollInterval := pollInterval h |}).
Definition setIsMining (v : bool) : State -> State :=
  with_hooks (fun h =>
    {| jobId := jobId h; form := form h; isMining := v;
       miningResult := miningResult h; miningProgress := miningProgress h;
       miningStatus := miningStatus h; phaseDetail := phaseDetail h;
       pollInterval := pollInterval h |}).
Definition setMiningResult (v : option MiningResult) : State -> State :=
  with_hooks (fun h =>
    {| jobId := jobId h; form := form h; isMining := isMining h;
       miningResult := v; miningProgress := miningProgress h;
       miningStatus := miningStatus h; phaseDetail := phaseDetail h;
       pollInterval := pollInterval h |}).
Definition setMiningProgress (v : num) : State -> State :=
  with_hooks (fun h =>
    {| jobId := jobId h; form := form h; isMining := isMining h;
       miningResult := miningResult h; miningProgress := v;
       miningStatus := miningStatus h; phaseDetail := phaseDetail h;
       pollInterval := pollInterval h |}).
Definition setMiningStatus (v : jsval) : State -> State :=
  with_hooks (fun h =>
    {| jobId := jobId h; form := form h; isMining := isMining h;
       miningResult := miningResult h; miningProgress := miningProgress h;
       miningStatus := v; phaseDetail := phaseDetail h;
       pollInterval := pollInterval h |}).
Definition setPhaseDetail (v : option PhaseDetail) : State -> State :=
  with_hooks (fun h =>
    {| jobId := jobId h; form := form h; isMining := isMining h;
       miningResult := miningResult h; miningProgress := miningProgress h;
       miningStatus := miningStatus h; phaseDetail := v;
       pollInterval := pollInterval h |}).
Definition setPollInterval (v : option timer) : State -> State :=
  with_hooks (fun h =>
    {| jobId := jobId h; form := form h; isMining := isMining h;
       miningResult := miningResult h; miningProgress := miningProgress h;
       miningStatus := miningStatus h; phaseDetail := phaseDetail h;
       pollInterval := v |}).

(** Assignments to [ref.current]. *)
Definition set_pollIntervalRef (v : option timer) : State -> State :=
  with_refs (fun r =>
    {| pollIntervalRef := v; completedShownRef := completedShownRef r;
       maxProgressSeenRef := maxProgressSeenRef r |}).
Definition set_completedShownRef (v : bool) : State -> State :=
  with_refs (fun r =>
    {| pollIntervalRef := pollIntervalRef r; completedShownRef := v;
       maxProgressSeenRef := maxProgressSeenRef r |}).
Definition set_maxProgressSeenRef (v : num) : State -> State :=
  with_refs (fun r =>
    {| pollIntervalRef := pollIntervalRef r; completedShownRef := completedShownRef r;
       maxProgressSeenRef := v |}).

(** Effects on the world. *)
Definition toast (t : Toast) : State -> State :=
  with_world (fun w =>
    {| toasts := toasts w ++ [t]; console := console w; requests := requests w;
       timers := timers w; nextTimer := nextTimer w; polls := polls w;
       posts := posts w; fetches := fetches w;
       eff_deps := eff_deps w;
       eff_intervalId := eff_intervalId w |}).
Definition console_log (l : Log) : State -> State :=
  with_world (fun w =>
    {| toasts := toasts w; console := console w ++ [l]; requests := requests w;
       timers := timers w; nextTimer := nextTimer w; polls := polls w;
       posts := posts w; fetches := fetches w;
       eff_deps := eff_deps w;
       eff_intervalId := eff_intervalId w |}).
Definition send (r : Request) : State -> State :=
  with_world (fun w =>
    {| toasts := toasts w; console := console w; requests := requests w ++ [r];
       timers := timers w; nextTimer := nextTimer w; polls := polls w;
       posts := posts w; fetches := fetches w;
       eff_deps := eff_deps w;
       eff_intervalId := eff_intervalId w |}).
Definition set_timers (ts : list Tick) (n : timer) : State -> State :=
  with_world (fun w =>
    {| toasts := toasts w; console := console w; requests := requests w;
       timers := ts; nextTimer := n; polls := polls w;
       posts := posts w; fetches := fetches w;
       eff_deps := eff_deps w;
       eff_intervalId := eff_intervalId w |}).
Definition set_polls (ps : list Tick) : State -> State :=
  with_world (fun w =>
    {| toasts := toasts w; console := console w; requests := requests w;
       timers := timers w; nextTimer := nextTimer w; polls := ps;
       posts := posts w; fetches := fetches w;
       eff_deps := eff_deps w;
       eff_intervalId := eff_intervalId w |}).
Definition set_posts (ps : list StartClosure) : State -> State :=
  with_world (fun w =>
    {| toasts := toasts w; console := console w; requests := requests w;
       timers := timers w; nextTimer := nextTimer w; polls := polls w;
       posts := ps; fetches := fetches w;
       eff_deps := eff_deps w;
       eff_intervalId := eff_intervalId w |}).
Definition set_fetches (fs : list (option string)) : State -> State :=
  with_world (fun w =>
    {| toasts := toasts w; console := console w; requests := requests w;
       timers := timers w; nextTimer := nextTimer w; polls := polls w;
       posts := posts w; fetches := fs;
       eff_deps := eff_deps w; eff_intervalId := eff_intervalId w |}).
Definition set_effect (deps : bool * string) (i : option timer) : State -> State :=
  with_world (fun w =>
    {| toasts := toasts w; console := console w; requests := requests w;
       timers := timers w; nextTimer := nextTimer w; polls := polls w;
       posts := posts w; fetches := fetches w;
       eff_deps := deps; eff_intervalId := i |}).

(** [clearInterval(id)]: the interval fires no more. *)
Definition clearInterval (id : timer) (s : State) : State :=
  set_timers (filter (fun t => t_timer t <> id) (timers (world s)))
             (nextTimer (world s)) s.

(** [setInterval(callback, 250)] for a callback that closed over [job]. *)
Definition setInterval (job : string) (s : State) : timer * State :=
  let id := nextTimer (world s) in
  (id, set_timers (timers (world s) ++ [{| t_timer := id; t_jobId := job |}])
                  (Pos.succ id) s).

(** ** The component *)

Section Mine.

Variable host : Host.

(** [Number(v)]: a plain object prints as "[object Object]", which is no
    numeric literal. *)
Definition Number (v : jsval) : num :=
  match v with
  | JUndefined => NaN
  | JNull => zero
  | JBool true => one
  | JBool false => zero
  | JNum n => n
  | JStr s => StringToNumber host s
  | JObj _ => NaN
  end.

(** The number behind a value for which [typeof v === "number"] held. *)
Definition the_number (v : jsval) : num :=
  match v with JNum n => n | _ => NaN end.

(** [`${integrationAPI.defaults.baseURL}/api/download-result?job_id=${jobId}`] *)
Definition download_result_url (job : string) : string :=
  baseURL host +:+ "/api/download-result?job_id=" +:+ job.

(** *** The tick callback of the polling effect (lines 194-246) *)

(** [Math.min(100, Math.max(0, Number(data.progress) ?? 0))] *)
Definition clamped_progress (data : jsval) : num :=
  Math_min hundred
    (Math_max zero
       (Number (js_coalesce (JNum (Number (get data "progress"))) (JNum zero)))).

(** The updater handed to [setPhaseDetail] in the three phase branches:
    [prev && prev.phase === name && prev.current > c.current ? prev
     : { current: c.current, total: c.total, phase: name }]. *)
Definition phase_update (name : string) (c : jsval) (prev : option PhaseDetail)
  : option PhaseDetail :=
  match prev with
  | Some p =>
      if String.eqb (phase p) name
         && num_gt (current p) (the_number (get c "current"))
      then Some p
      else Some {| current := the_number (get c "current");
                   total := the_number (get c "total"); phase := name |}
  | None => Some {| current := the_number (get c "current");
                    total := the_number (get c "total"); phase := name |}
  end.

(** [c && typeof c.current === "number" && typeof c.total === "number"] *)
Definition is_counter (c : jsval) : bool :=
  truthy c && is_number (get c "current") && is_number (get c "total").

(** The [if]/[else if] chain of lines 211-223. *)
Definition classify_phase (progress : num) (phases : jsval) (s : State) : State :=
  let search := get phases "search_trials" in
  let sampling := get phases "sampling" in
  let saving := get phases "saving" in
  if num_lt progress (ofZ 20) then
    if is_counter sampling && num_gt (Number (get sampling "total")) one
    then setPhaseDetail (phase_update "sampling" sampling (phaseDetail (hooks s))) s
    else setPhaseDetail None s
  else if num_ge progress (ofZ 20) && num_lt progress (ofZ 95)
          && truthy search && num_le (Number (get search "total")) one
  then setPhaseDetail None s
  else if num_ge progress (ofZ 95) && is_counter saving
  then setPhaseDetail (phase_update "saving" saving (phaseDetail (hooks s))) s
  else if num_ge progress (ofZ 20) && is_counter search
          && num_gt (Number (get search "total")) one
  then setPhaseDetail (phase_update "search_trials" search (phaseDetail (hooks s))) s
  else s.

(** The completion branch (lines 228-241), for a tick that closed over
    [job] and found [pollIntervalRef.current] to be [id]. *)
Definition finalize_from_poll (job : string) (data : jsval) (id : timer)
  (s : State) : State :=
  let s := clearInterval id s in
  let s := set_pollIntervalRef None s in
  let s := setPollInterval None s in
  let s := setMiningProgress hundred s in
  let s := setMiningStatus
             (js_or (get data "message") (JStr "Mining completed successfully!")) s in
  let s := setMiningResult
             (Some {| downloadUrl := JStr (download_result_url job);
                      patternsCount := JUndefined |}) s in
  let s := setIsMining false s in
  let s := set_completedShownRef true s in
  toast (ToastSuccess "Mining completed successfully!") s.

(** Lines 200-224: the clamped progress, the two maxima, and the message
    and phase updates behind the tolerance test. *)
Definition reconcile (data : jsval) (s : State) : State :=
  let progress := clamped_progress data in
  let prevMax := maxProgressSeenRef (refs s) in
  let newMax := Math_max prevMax progress in
  let s := set_maxProgressSeenRef newMax s in
  let s := setMiningProgress (Math_max (miningProgress (hooks s)) progress) s in
  let s :=
    if num_ge progress (num_sub prevMax half)
       && negb (nullish (get data "message"))
    then setMiningStatus (get data "message") s else s in
  if num_ge progress (num_sub prevMax half)
     && truthy (get data "phases") && is_object (get data "phases")
  then classify_phase progress (get data "phases") s else s.

(** The body of the callback once [res.data] is there (lines 197-242):
    [reconcile], then the completion test of lines 227-228. *)
Definition pollTick_data (job : string) (data : jsval) (s : State) : State :=
  if truthy data then
    let progress := clamped_progress data in
    let s := reconcile data s in
    let completed :=
      is_str (get data "status") "completed" || num_ge progress hundred in
    match pollIntervalRef (refs s) with
    | Some id => if completed then finalize_from_poll job data id s else s
    | None => s
    end
  else s.

(** How an awaited request ends: the promise rejects with a value, or
    resolves with a response whose [data] is given. *)
Inductive Outcome : Type :=
  | Rejected (e : jsval)
  | Resolved (data : jsval).

(** The whole callback: [try { ... } catch (e) { console.warn(...) }]. *)
Definition pollTick (job : string) (o : Outcome) (s : State) : State :=
  match o with
  | Resolved data => pollTick_data job data s
  | Rejected e => console_log (ConsoleWarn "Failed to poll progress" e) s
  end.

(** *** [startMining] (lines 127-182) *)

(** The [FormData] sent to the miner, in the order of the [append] calls. *)
Definition formData_of (job : string) (f : Form) : list (string * string) :=
  [ ("job_id", job);
    ("min_pattern_size", minPatternSize f);
    ("max_pattern_size", maxPatternSize f);
    ("min_neighborhood_size", minNeighborhoodSize f);
    ("max_neighborhood_size", maxNeighborhoodSize f);
    ("n_neighborhoods", nNeighborhoods f);
    ("n_trials", nTrials f);
    ("out_batch_size", outBatchSize f);
    ("search_strategy", searchStrategy f);
    ("sample_method", sampleMethod f);
    ("graph_type", graphType f);
    ("graph_output_format", outputFormat f) ].

Definition closure_of (s : State) : StartClosure :=
  {| c_jobId := jobId (hooks s); c_pollInterval := pollInterval (hooks s) |}.

(** From the click up to the [await]: the guard on the job id, the three
    resets, and the request. *)
Definition startMining (s : State) : State :=
  if negb (truthy (JStr (jobId (hooks s)))) then
    toast (ToastError "Please provide a Job ID" None) s
  else
    let c := closure_of s in
    let s := setIsMining true s in
    let s := setMiningResult None s in
    let s := set_completedShownRef false s in
    let s := send (Post "/api/mine-patterns"
                        (formData_of (jobId (hooks s)) (form (hooks s)))) s in
    set_posts (posts (world s) ++ [c]) s.

(** The [finally] block: it reads the [pollInterval] of the render the
    handler was created in. *)
Definition startMining_finally (c : StartClosure) (s : State) : State :=
  let s := setIsMining false s in
  match c_pollInterval c with
  | Some id => setPollInterval None (clearInterval id s)
  | None => s
  end.

(** [v?.k] *)
Definition opt_get (v : jsval) (k : string) : jsval :=
  if nullish v then JUndefined else get v k.

(** The [catch] block followed by [finally].  A rejection value that is
    [null] or [undefined] makes [error.response] throw inside the handler,
    after the log and before the toast. *)
Definition startMining_rejected (c : StartClosure) (error : jsval) (s : State)
  : State :=
  let s := console_log (ConsoleError "Mining failed:" error) s in
  let s :=
    match prop error "response" with
    | None => s
    | Some response =>
        let detail := opt_get (opt_get response "data") "detail" in
        toast (ToastError "Mining failed"
                 (Some (js_or (js_or detail (get error "message"))
                              (JStr "Unknown error occurred")))) s
    end in
  startMining_finally c s.

(** After the [await], for a response whose [data] is given (lines 159-167),
    followed by [finally]; a [data] of [null] or [undefined] throws on
    [response.data.download_url] and lands in [catch]. *)
Definition startMining_resolved (c : StartClosure) (data : jsval) (s : State)
  : State :=
  match prop data "download_url" with
  | None => startMining_rejected c (TypeError host) s
  | Some url =>
      let downloadLink := js_or url (JStr (download_result_url (c_jobId c))) in
      let s := setMiningResult
                 (Some {| downloadUrl := downloadLink;
                          patternsCount := get data "patterns_count" |}) s in
      let s := if negb (completedShownRef (refs s))
               then toast (ToastSuccess "Mining completed successfully!") s
               else s in
      startMining_finally c s
  end.

(** *** The polling effect (lines 185-258)

    [useEffect(..., [isMining, jobId])]: after a render in which one of the
    two dependencies differs from the last run, the clean-up of the last run
    is called, then the body. *)

Definition deps_of (s : State) : bool * string :=
  (isMining (hooks s), jobId (hooks s)).

Definition deps_eqb (a b : bool * string) : bool :=
  Bool.eqb (fst a) (fst b) && String.eqb (snd a) (snd b).

Definition effect_cleanup (s : State) : State :=
  match eff_intervalId (world s) with
  | Some id => set_pollIntervalRef None (clearInterval id s)
  | None => s
  end.

Definition effect_body (s : State) : State :=
  if isMining (hooks s) && truthy (JStr (jobId (hooks s))) then
    let s := setMiningProgress zero s in
    let s := setMiningStatus (JStr "Starting miner...") s in
    let s := setPhaseDetail None s in
    let s := set_maxProgressSeenRef zero s in
    let '(id, s) := setInterval (jobId (hooks s)) s in
    let s := set_pollIntervalRef (Some id) s in
    let s := setPollInterval (Some id) s in
    set_effect (deps_of s) (Some id) s
  else set_effect (deps_of s) None s.

Definition render (s : State) : State :=
  if deps_eqb (deps_of s) (eff_deps (world s)) then s
  else effect_body (effect_cleanup s).

(** *** What the progress card shows (lines 472-510)

    The card is rendered while [isMining]; it shows [miningProgress],
    [miningStatus], and, under the condition of line 502, a line for
    [phaseDetail]. *)

(** [String(miningStatus).toLowerCase().includes("sampling")]: only the text
    of a string can contain the word. *)
Definition mentions_sampling (status : jsval) : bool :=
  match status with
  | JStr t => includes (toLowerCase t) "sampling"
  | _ => false
  end.

(** The condition of line 502 on a [phaseDetail] that is there. *)
Definition phase_line_shown (pd : PhaseDetail) (status : jsval) : bool :=
  num_gt (total pd) one
  && negb (String.eqb (phase pd) "search_trials"
           && num_eq (current pd) zero && num_eq (total pd) one)
  && (negb (String.eqb (phase pd) "search_trials")
      || negb (mentions_sampling status)).

(** The phase the user sees, if any. *)
Definition shown_phase (h : Hooks) : option PhaseDetail :=
  if isMining h then
    match phaseDetail h with
    | Some pd => if phase_line_shown pd (miningStatus h) then Some pd else None
    | None => None
    end
  else None.

(** The [min] attribute of the "Max Pattern Size" input (line 343). *)
Definition max_size_min (f : Form) : num := parseInt (minPatternSize f).

(** *** [initData] (lines 74-125) *)

(** [a.diff(b, 'second')] of dayjs: the difference in milliseconds over
    1000, truncated towards zero; [NaN] when a date is invalid. *)
Definition diff_second (a b : string) : num :=
  match dayjs_valueOf host a, dayjs_valueOf host b with
  | Some x, Some y => ofZ (Z.quot (x - y) 1000)
  | _, _ => NaN
  end.

(** The predicate of the second [find] (lines 91-94). *)
Definition is_brother (currentJob h : JobRecord) : bool :=
  String.eqb (writer_type h) "networkx"
  && num_lt (Math_abs (diff_second (imported_on h) (imported_on currentJob)))
            (ofZ 60).

(** [a || b] on job ids that may be [null]. *)
Definition or_id (a b : option string) : option string :=
  match a with
  | Some x => if truthy (JStr x) then Some x else b
  | None => b
  end.

Definition truthy_id (a : option string) : bool :=
  match a with Some x => truthy (JStr x) | None => false end.

(** The value of [bestMatch] at line 106, for a history that is not empty. *)
Definition bestMatch (targetJobId : option string) (hs : list JobRecord)
  : option JobRecord :=
  let found :=
    if truthy_id targetJobId then
      match find (fun h => bool_decide (Some (job_id h) = targetJobId)) hs with
      | Some currentJob =>
          if String.eqb (writer_type currentJob) "mork" then
            match find (is_brother currentJob) hs with
            | Some brother => Some brother
            | None => Some currentJob
            end
          else Some currentJob
      | None => None
      end
    else None in
  match found with
  | Some b => Some b
  | None =>
      match find (fun h => String.eqb (writer_type h) "networkx") hs with
      | Some b => Some b
      | None => head hs
      end
  end.

(** The job id handed to [setJobId], if [setJobId] is called at all. *)
Definition selected_job (urlJobId : option string) (r : HistoryResponse)
  : option string :=
  let targetJobId := or_id urlJobId (selected_job_id r) in
  match history r with
  | Some hs =>
      if (0 <? length hs)%nat then job_id <$> bestMatch targetJobId hs else None
  | None => None
  end.

Definition initData_ends (urlJobId : option string) (o : HistoryOutcome)
  (s : State) : State :=
  match o with
  | HistoryResolved r =>
      match selected_job urlJobId r with
      | Some j => setJobId j s
      | None => s
      end
  | HistoryRejected e =>
      let s := console_log (ConsoleError "Failed to load history from loader" e) s in
      toast (ToastError "Connection error"
               (Some (JStr "Could not fetch your graph library."))) s
  end.

(** *** The component as a transition system *)

Inductive Event : Type :=
  (** the user edits one of the two pattern-size inputs (the other nine
      fields of the form are edited in the same way) *)
  | TypeMinPatternSize (v : string)
  | TypeMaxPatternSize (v : string)
  (** the user clicks "Start Mining" *)
  | ClickStart
  (** the interval [id] fires and its callback sends the status request *)
  | TimerFires (id : timer)
  (** the [k]-th status request in flight ends *)
  | PollEnds (k : nat) (o : Outcome)
  (** the [k]-th start request in flight ends *)
  | PostEnds (k : nat) (o : Outcome)
  (** the [k]-th history request in flight ends *)
  | HistoryEnds (k : nat) (o : HistoryOutcome).

Definition with_minPatternSize (v : string) (f : Form) : Form :=
  {| minPatternSize := v; maxPatternSize := maxPatternSize f;
     minNeighborhoodSize := minNeighborhoodSize f;
     maxNeighborhoodSize := maxNeighborhoodSize f;
     nNeighborhoods := nNeighborhoods f; nTrials := nTrials f;
     outBatchSize := outBatchSize f; searchStrategy := searchStrategy f;
     sampleMethod := sampleMethod f; graphType := graphType f;
     outputFormat := outputFormat f |}.

Definition with_maxPatternSize (v : string) (f : Form) : Form :=
  {| minPatternSize := minPatternSize f; maxPatternSize := v;
     minNeighborhoodSize := minNeighborhoodSize f;
     maxNeighborhoodSize := maxNeighborhoodSize f;
     nNeighborhoods := nNeighborhoods f; nTrials := nTrials f;
     outBatchSize := outBatchSize f; searchStrategy := searchStrategy f;
     sampleMethod := sampleMethod f; graphType := graphType f;
     outputFormat := outputFormat f |}.

(** One event and the render that follows it; [None] when the event cannot
    happen in [s] (the button is not shown or is disabled, the interval was
    cleared, there is no such request in flight). *)
Definition step (e : Event) (s : State) : option State :=
  match e with
  | TypeMinPatternSize v =>
      Some (render (setForm (with_minPatternSize v (form (hooks s))) s))
  | TypeMaxPatternSize v =>
      Some (render (setForm (with_maxPatternSize v (form (hooks s))) s))
  | ClickStart =>
      if negb (isMining (hooks s)) && truthy (JStr (jobId (hooks s)))
      then Some (render (startMining s)) else None
  | TimerFires id =>
      match find (fun t => Pos.eqb (t_timer t) id) (timers (world s)) with
      | Some t =>
          let s := send (Get ("/api/mining-status/" +:+ t_jobId t)) s in
          Some (render (set_polls (polls (world s) ++ [t]) s))
      | None => None
      end
  | PollEnds k o =>
      match polls (world s) !! k with
      | Some t =>
          let s := set_polls (delete k (polls (world s))) s in
          Some (render (pollTick (t_jobId t) o s))
      | None => None
      end
  | PostEnds k o =>
      match posts (world s) !! k with
      | Some c =>
          let s := set_posts (delete k (posts (world s))) s in
          Some (render (match o with
                        | Resolved data => startMining_resolved c data s
                        | Rejected e => startMining_rejected c e s
                        end))
      | None => None
      end
  | HistoryEnds k o =>
      match fetches (world s) !! k with
      | Some urlJobId =>
          let s := set_fetches (delete k (fetches (world s))) s in
          Some (render (initData_ends urlJobId o s))
      | None => None
      end
  end.

Fixpoint run (es : list Event) (s : State) : option State :=
  match es with
  | [] => Some s
  | e :: es => match step e s with Some s' => run es s' | None => None end
  end.

End Mine.

(** The initial values of the form (lines 41-51). *)
Definition default_form : Form :=
  {| minPatternSize := "3"; maxPatternSize := "5";
     minNeighborhoodSize := "3"; maxNeighborhoodSize := "5";
     nNeighborhoods := "500"; nTrials := "100"; outBatchSize := "3";
     searchStrategy := "greedy"; sampleMethod := "tree";
     graphType := "directed"; outputFormat := "representative" |}.

(** The state of a freshly mounted component, [initData] already waiting
    for the history: [urlJobId] is [searchParams.get("job_id")]. *)
Definition init (urlJobId : option string) : State :=
  let job := default "" urlJobId in
  {| hooks := {| jobId := job; form := default_form; isMining := false;
                 miningResult := None; miningProgress := zero;
                 miningStatus := JStr "Initializing..."; phaseDetail := None;
                 pollInterval := None |};
     refs := {| pollIntervalRef := None; completedShownRef := false;
                maxProgressSeenRef := zero |};
     world := {| toasts := []; console := []; requests := [Get "api/history"];
                 timers := []; nextTimer := 1%positive; polls := []; posts := [];
                 fetches := [urlJobId];
                 eff_deps := (false, job); eff_intervalId := None |} |}.

(** ** The rest of the view, and the settings page *)

(** [activeGraph] (lines 260-261 of mine.tsx), over the [history] cell and
    [jobId]: the networkx entry of that id if there is one, else any entry
    of that id. *)
Definition activeGraph (history : list JobRecord) (jobId : string)
  : option JobRecord :=
  match find (fun h => String.eqb (job_id h) jobId
                       && String.eqb (writer_type h) "networkx") history with
  | Some g => Some g
  | None => find (fun h => String.eqb (job_id h) jobId) history
  end.

(** The settings page (the [Settings] route), row by row: [row] is
    [row.original], whose [job_id] is also [row.getValue("job_id")]. *)
Definition isNetworkX (row : JobRecord) : bool :=
  String.eqb (writer_type row) "networkx".

Definition isDirectlySelected (currentJobId : string) (row : JobRecord) : bool :=
  String.eqb (job_id row) currentJobId.

(** [data.history.some(h => (h.job_id === row.original.job_id
     || h.job_id === row.getValue("job_id")) && h.writer_type === 'networkx')] *)
Definition hasNetworkXBrother (history : list JobRecord) (row : JobRecord) : bool :=
  existsb (fun h => (String.eqb (job_id h) (job_id row)
                     || String.eqb (job_id h) (job_id row))
                    && String.eqb (writer_type h) "networkx") history.

(** [isDirectlySelected && (hasNetworkXBrother ? isNetworkX : true)] *)
Definition isSelected (history : list JobRecord) (currentJobId : string)
  (row : JobRecord) : bool :=
  isDirectlySelected currentJobId row
  && (if hasNetworkXBrother history row then isNetworkX row else true).

(** The array [map] of [colorMapping]. *)
Definition colorMapping_map : list string :=
  [ "#EF4444"; "#22C55E"; "#F97316"; "#3B82F6"; "#EAB308"; "#8B5CF6";
    "#84CC16"; "#EC4899"; "#14B8A6"; "#6366F1"; "#06B6D4"; "#F472B6";
    "#0EA5E9"; "#A855F7"; "#6B7280" ].

(** [new Set(ids)] spread into an array: the distinct ids, each at the place
    of its first occurrence. *)
Definition uniqueNodeTypes (ids : list string) : list string :=
  foldl (fun set x => if bool_decide (x ∈ set) then set else set ++ [x]) [] ids.

(** [types.reduce((a, c, i) => ({ ...a, [c]: map[i % map.length] }), {})],
    from index [i] on and accumulator [a]. *)
Fixpoint reduce_colors (i : nat) (a : gmap string string) (types : list string)
  : gmap string string :=
  match types with
  | [] => a
  | c :: types =>
      reduce_colors (S i)
        (<[c := default "" (colorMapping_map !! (i mod length colorMapping_map)%nat)]> a)
        types
  end.

(** [colorMapping(graph)], for [graph.nodes] given by the [data.id] of each
    node; [None] is the [undefined] returned when there is no [nodes]. *)
Definition colorMapping (nodes : option (list string))
  : option (gmap string string) :=
  match nodes with
  | None => None
  | Some ids => Some (reduce_colors 0 ∅ (uniqueNodeTypes ids))
  end.

(** ** Vocabulary of the statements *)

Section Vocabulary.

Variable host : Host.

(** Two timestamps denote instants less than 60 seconds apart. *)
Definition within_60s (a b : string) : Prop :=
  exists x y : Z,
    dayjs_valueOf host a = Some x /\ dayjs_valueOf host b = Some y
    /\ Z.abs (x - y) < 60000.


Definition is_networkx (h : JobRecord) : bool :=
  String.eqb (writer_type h) "networkx".





(** The tolerance gate of lines 205-206: [progress >= prevMax - 0.5], on
    the clamped progress of the snapshot and the maximum seen before it. *)
Definition gate (data : jsval) (s : State) : bool :=
  num_ge (clamped_progress host data)
         (num_sub (maxProgressSeenRef (refs s)) half).

(** [data.status === "completed" || progress >= 100] *)
Definition completed (data : jsval) : bool :=
  is_str (get data "status") "completed"
  || num_ge (clamped_progress host data) hundred.

(** The tick runs the completion branch: the payload is there, it reports
    completion, and [pollIntervalRef.current] is set. *)
Definition finalizes (data : jsval) (s : State) : bool :=
  truthy data && completed data
  && match pollIntervalRef (refs s) with Some _ => true | None => false end.

(** A counter with numeric fields whose total exceeds 1. *)
Definition counter_gt1 (c : jsval) : bool :=
  is_counter c && num_gt (the_number (get c "total")) one.

(** A number of [0,100]. *)
Definition in_range (n : num) : Prop :=
  num_le zero n = true /\ num_le n hundred = true.

(** The name of the phase on display, if any. *)
Definition phase_name (pd : option PhaseDetail) : option string :=
  phase <$> pd.

(** States the component reaches from a fresh mount. *)
Definition reachable (s : State) : Prop :=
  exists urlJobId es, run host es (init urlJobId) = Some s.

End Vocabulary.

(** The interval the last run of the polling effect created, with the job id
    its callback closed over. *)
Definition live_timer (s : State) : list Tick :=
  match eff_intervalId (world s) with
  | Some id => [ {| t_timer := id; t_jobId := snd (eff_deps (world s)) |} ]
  | None => []
  end.

(** What holds of timers and identifiers also between a handler and the
    render that follows it. *)
Definition timers_sound (s : State) : Prop :=
  (timers (world s) = [] \/ timers (world s) = live_timer s)
  /\ (forall id, eff_intervalId (world s) = Some id ->
        (id < nextTimer (world s))%positive)
  /\ (pollIntervalRef (refs s) = None
      \/ pollIntervalRef (refs s) = eff_intervalId (world s))
  /\ (forall id, pollInterval (hooks s) = Some id ->
        (id < nextTimer (world s))%positive)
  /\ (forall c id, c ∈ posts (world s) -> c_pollInterval c = Some id ->
        (id < nextTimer (world s))%positive
        /\ eff_intervalId (world s) <> Some id).

(** What holds after every render: the effect has run for the current
    dependencies, its interval is the only one alive, and it is alive only
    while mining. *)
Definition rendered (s : State) : Prop :=
  timers_sound s
  /\ eff_deps (world s) = deps_of s
  /\ timers (world s) = live_timer s
  /\ (forall id, eff_intervalId (world s) = Some id -> isMining (hooks s) = true).

(** ** Concrete inputs *)

(** Four instants of January 2024, as dayjs reads their ISO texts. *)
Definition example_dayjs (text : string) : option Z :=
  if String.eqb text "2024-01-01T00:00:00Z" then Some 1704067200000
  else if String.eqb text "2024-01-01T00:00:45Z" then Some 1704067245000
  else if String.eqb text "2024-01-01T00:01:30Z" then Some 1704067290000
  else if String.eqb text "2024-01-02T00:00:00Z" then Some 1704153600000
  else None.

(** A host for the examples below, none of which reads a number out of a
    string. *)
Definition example_host : Host :=
  {| StringToNumber := fun _ => NaN;
     baseURL := "http://miner";
     TypeError := JObj {[ "message" := JStr "Cannot read properties of null" ]};
     dayjs_valueOf := example_dayjs |}.

Definition job (id writer imported : string) : JobRecord :=
  {| job_id := id; writer_type := writer; imported_on := imported |}.

(** A mork entry imported at [t], with a networkx entry imported 45 seconds
    later, and with one imported 90 seconds later. *)
Definition history_45s : list JobRecord :=
  [ job "m" "mork" "2024-01-01T00:00:00Z";
    job "n" "networkx" "2024-01-01T00:00:45Z" ].

Definition history_90s : list JobRecord :=
  [ job "m" "mork" "2024-01-01T00:00:00Z";
    job "n" "networkx" "2024-01-01T00:01:30Z" ].


Definition answer (sel : option string) (hs : list JobRecord) : HistoryResponse :=
  {| selected_job_id := sel; history := Some hs |}.

(** Status bodies: a counter, a [phases] object with one entry, and a
    snapshot with the four fields the callback reads. *)
Definition counter (c t : Z) : jsval :=
  JObj (<["current" := JNum (ofZ c)]> (<["total" := JNum (ofZ t)]> ∅)).

Definition one_phase (name : string) (c : jsval) : jsval :=
  JObj (<[name := c]> ∅).

Definition snapshot (progress : Z) (status message : string) (phases : jsval)
  : jsval :=
  JObj (<["progress" := JNum (ofZ progress)]>
        (<["status" := JStr status]>
         (<["message" := JStr message]>
          (<["phases" := phases]> ∅)))).

(** A body with a status and a message but no [progress] field. *)
Definition snapshot_without_progress : jsval :=
  JObj (<["status" := JStr "running"]> (<["message" := JStr "working"]> ∅)).

(** A run of job "j" under way: the click, then the first tick sent. *)
Definition started : list Event := [ClickStart; TimerFires 1].

(** The state reached from a fresh mount on [?job_id=j] by a list of events;
    a list that cannot happen leaves the initial state. *)
Definition after (es : list Event) : State :=
  default (init (Some "j")) (run example_host es (init (Some "j"))).

(** Every event of the list can happen, in this order, from that mount. *)
Definition happens (es : list Event) : Prop :=
  run example_host es (init (Some "j")) = Some (after es).

(** A sampling snapshot at 10%, then a snapshot at 50% that still carries
    only the sampling counter. *)
Definition sampling_then_mid : list Event :=
  started ++
  [ PollEnds 0 (Resolved (snapshot 10 "running" "Sampling neighborhoods"
                            (one_phase "sampling" (counter 3 10))));
    TimerFires 1;
    PollEnds 0 (Resolved (snapshot 50 "running" "Searching"
                            (one_phase "sampling" (counter 3 10)))) ].

(** A snapshot at 50%, then a second status request sent. *)
Definition halfway : list Event :=
  started ++
  [ PollEnds 0 (Resolved (snapshot 50 "running" "halfway" JUndefined));
    TimerFires 1 ].

(** A snapshot that reports completion at a progress of 10. *)
Definition completed_at_10 : jsval := snapshot 10 "completed" "finished" JUndefined.

(** The start request answered with a download link and a pattern count. *)
Definition start_response : jsval :=
  JObj (<["download_url" := JStr "http://miner/files/patterns.json"]>
        (<["patterns_count" := JNum (ofZ 7)]> ∅)).

(** A poll tick finalizes the run; the start request is still in flight. *)
Definition finalized_by_poll : list Event :=
  started ++ [ PollEnds 0 (Resolved (snapshot 100 "completed" "done" JUndefined)) ].

(** A first run ends on the answer to its start request while one of its
    status requests is still in flight, and a second run is started. *)
Definition second_run : list Event :=
  started ++ [ PostEnds 0 (Resolved start_response); ClickStart ].

(** The user asks for patterns of at least 5 and at most 3 nodes. *)
Definition max_below_min : list Event :=
  [ TypeMinPatternSize "5"; TypeMaxPatternSize "3" ].

(** The node types of a small graph, one of them met twice, and the colours
    the settings page gives them. *)
Definition node_types : list string := ["gene"; "protein"; "gene"; "pathway"].

Definition node_colors : gmap string string :=
  default ∅ (colorMapping (Some node_types)).

(** The sampling counter at 3 of 10, and a later snapshot whose sampling
    counter reads 2 of 10. *)
Definition sampling_3_of_10 : PhaseDetail :=
  {| current := ofZ 3; total := ofZ 10; phase := "sampling" |}.

Definition sampled : list Event :=
  started ++
  [ PollEnds 0 (Resolved (snapshot 10 "running" "Sampling neighborhoods"
                            (one_phase "sampling" (counter 3 10)))) ].

Definition sampling_2_of_10 : jsval :=
  snapshot 12 "running" "Sampling" (one_phase "sampling" (counter 2 10)).

(** Two status requests are in flight when the answer to the first one
    finalizes the run; the answer to the second one reports completion
    again. *)
Definition finished_with_poll_in_flight : list Event :=
  started ++
  [ TimerFires 1;
    PollEnds 0 (Resolved (snapshot 100 "completed" "done" JUndefined)) ].

Definition completion_again : Outcome :=
  Resolved (snapshot 100 "completed" "again" JUndefined).

(** The history arrives while job [j] is being mined, and selects [n]. *)
Definition history_answered : list Event :=
  started ++ [ HistoryEnds 0 (HistoryResolved (answer None history_45s)) ].

(** A run finalized by a poll tick, a second run started, and then the
    answer to the start request of the first run. *)
Definition restarted : list Event := finalized_by_poll ++ [ ClickStart ].

Definition restarted_then_first_answer : list Event :=
  restarted ++ [ PostEnds 0 (Resolved start_response) ].

(** ** Vocabulary of the further properties *)

(** The [progress] of a status body reads as a number. *)
Definition reads_number (host : Host) (data : jsval) : Prop :=
  Number host (get data "progress") <> NaN.

(** The status bodies [ds] handled one after the other by the callback of
    one interval. *)
Definition ticks (host : Host) (job : string) (ds : list jsval) (s : State)
  : State :=
  foldl (fun s d => pollTick_data host job d s) s ds.

(** How many start requests and how many other requests a log holds, and how
    many clicks and firings of an interval a list of events holds. *)
Definition count_posts (rs : list Request) : nat :=
  length (List.filter (fun r => match r with Post _ _ => true | Get _ => false end) rs).

Definition count_gets (rs : list Request) : nat :=
  length (List.filter (fun r => match r with Get _ => true | Post _ _ => false end) rs).

Definition count_clicks (es : list Event) : nat :=
  length (List.filter (fun e => match e with ClickStart => true | _ => false end) es).

Definition count_fires (es : list Event) : nat :=
  length (List.filter (fun e => match e with TimerFires _ => true | _ => false end) es).

(** While mining, the progress on display is the maximum the ref holds. *)
Definition gauge_agrees (s : State) : Prop :=
  isMining (hooks s) = true ->
  miningProgress (hooks s) = maxProgressSeenRef (refs s).

(** While mining for a job, the polling effect holds an interval. *)
Definition poller_alive (s : State) : Prop :=
  isMining (hooks s) = true -> truthy (JStr (jobId (hooks s))) = true ->
  eff_intervalId (world s) <> None.

(** * Properties *)

(** ** Numbers *)

Lemma num_lt_irrefl (a : num) : num_lt a a = false.
Proof.
  destruct a as [| |q|]; simpl; try reflexivity.
  apply negb_false_iff, Qle_bool_iff, Qle_refl.
Qed.

Lemma Qle_bool_false (x y : Q) : Qle_bool x y = false <-> (y < x)%Q.
Proof.
  rewrite <- not_true_iff_false, Qle_bool_iff. split.
  - apply Qnot_le_lt.
  - apply Qlt_not_le.
Qed.

(** Comparisons of [num] as propositions over [Q]. *)
Ltac num_cases :=
  unfold num_ge, num_gt, ofZ, zero, one, hundred, half, inject_Z in *;
  repeat match goal with
         | n : num |- _ => destruct n
         end;
  simpl in *; try discriminate; try reflexivity;
  repeat match goal with
         | H : negb _ = true |- _ => apply negb_true_iff in H
         | H : negb _ = false |- _ => apply negb_false_iff in H
         | H : Qle_bool _ _ = true |- _ => apply Qle_bool_iff in H
         | H : Qle_bool _ _ = false |- _ => apply Qle_bool_false in H
         | |- negb _ = true => apply negb_true_iff
         | |- negb _ = false => apply negb_false_iff
         | |- Qle_bool _ _ = true => apply Qle_bool_iff
         | |- Qle_bool _ _ = false => apply Qle_bool_false
         end;
  try lra.

Lemma num_lt_not_le (a b : num) : num_lt a b = true -> num_le b a = false.
Proof. intros H. num_cases. Qed.

Lemma num_le_not_lt (a b : num) : num_le b a = true -> num_lt a b = false.
Proof. intros H. num_cases. Qed.

Lemma num_ge_95_not_lt_20 (p : num) :
  num_ge p (ofZ 95) = true -> num_lt p (ofZ 20) = false /\ num_ge p (ofZ 20) = true.
Proof. intros H. split; num_cases. Qed.

(** ** The tick callback, field by field *)

Ltac break_ifs :=
  repeat match goal with
         | |- context [if ?b then _ else _] => destruct b
         | |- context [match ?o with Some _ => _ | None => _ end] => destruct o
         end.

Section Tick.

Variable host : Host.

Lemma classify_phase_refs (p : num) (ph : jsval) (s : State) :
  refs (classify_phase host p ph s) = refs s.
Proof. unfold classify_phase. break_ifs; reflexivity. Qed.

Lemma classify_phase_world (p : num) (ph : jsval) (s : State) :
  world (classify_phase host p ph s) = world s.
Proof. unfold classify_phase. break_ifs; reflexivity. Qed.

(** The classifier writes [phaseDetail] and nothing else. *)
Lemma classify_phase_frame (p : num) (ph : jsval) (s : State) :
  exists pd, classify_phase host p ph s = setPhaseDetail pd s.
Proof.
  destruct s as [[] ? ?]. unfold classify_phase.
  break_ifs; eexists; reflexivity.
Qed.

Ltac classify_frame :=
  repeat match goal with
         | |- context [classify_phase ?h ?p ?ph ?s] =>
             let pd := fresh "pd" in
             destruct (classify_phase_frame p ph s) as [pd ->]
         end.

Lemma classify_phase_detail (p : num) (ph : jsval) (s s' : State) :
  phaseDetail (hooks s) = phaseDetail (hooks s') ->
  phaseDetail (hooks (classify_phase host p ph s))
  = phaseDetail (hooks (classify_phase host p ph s')).
Proof.
  intros H. unfold classify_phase. rewrite H. break_ifs; simpl; congruence.
Qed.

Lemma reconcile_world (data : jsval) (s : State) :
  world (reconcile host data s) = world s.
Proof.
  unfold reconcile. break_ifs; rewrite ?classify_phase_world; reflexivity.
Qed.

Lemma reconcile_refs (data : jsval) (s : State) :
  refs (reconcile host data s)
  = refs (set_maxProgressSeenRef
            (Math_max (maxProgressSeenRef (refs s)) (clamped_progress host data)) s).
Proof.
  unfold reconcile. break_ifs; rewrite ?classify_phase_refs; reflexivity.
Qed.

Lemma reconcile_progress (data : jsval) (s : State) :
  miningProgress (hooks (reconcile host data s))
  = Math_max (miningProgress (hooks s)) (clamped_progress host data).
Proof.
  unfold reconcile. break_ifs; classify_frame; reflexivity.
Qed.

Lemma reconcile_status (data : jsval) (s : State) :
  miningStatus (hooks (reconcile host data s))
  = if gate host data s && negb (nullish (get data "message"))
    then get data "message" else miningStatus (hooks s).
Proof.
  unfold reconcile, gate. break_ifs; classify_frame; reflexivity.
Qed.

Lemma reconcile_phase (data : jsval) (s : State) :
  phaseDetail (hooks (reconcile host data s))
  = if gate host data s && truthy (get data "phases") && is_object (get data "phases")
    then phaseDetail (hooks (classify_phase host (clamped_progress host data)
                               (get data "phases") s))
    else phaseDetail (hooks s).
Proof.
  unfold reconcile, gate.
  destruct (_ && truthy _ && _); [|break_ifs; reflexivity].
  apply classify_phase_detail. break_ifs; reflexivity.
Qed.

Lemma reconcile_rest (data : jsval) (s : State) :
  jobId (hooks (reconcile host data s)) = jobId (hooks s)
  /\ form (hooks (reconcile host data s)) = form (hooks s)
  /\ isMining (hooks (reconcile host data s)) = isMining (hooks s)
  /\ miningResult (hooks (reconcile host data s)) = miningResult (hooks s)
  /\ pollInterval (hooks (reconcile host data s)) = pollInterval (hooks s).
Proof.
  unfold reconcile. break_ifs; classify_frame; repeat split.
Qed.

Lemma pollTick_data_eq (job : string) (data : jsval) (s : State) :
  pollTick_data host job data s
  = if truthy data then
      match pollIntervalRef (refs s) with
      | Some id =>
          if completed host data
          then finalize_from_poll host job data id (reconcile host data s)
          else reconcile host data s
      | None => reconcile host data s
      end
    else s.
Proof.
  unfold pollTick_data, completed. cbv zeta. now rewrite reconcile_refs.
Qed.

(** What a tick leaves in [miningProgress], [miningStatus] and [phaseDetail]. *)
Lemma pollTick_data_progress (job : string) (data : jsval) (s : State) :
  miningProgress (hooks (pollTick_data host job data s))
  = if finalizes host data s then hundred
    else if truthy data
         then Math_max (miningProgress (hooks s)) (clamped_progress host data)
         else miningProgress (hooks s).
Proof.
  rewrite pollTick_data_eq. unfold finalizes.
  destruct (truthy data); [|reflexivity].
  destruct (pollIntervalRef (refs s)), (completed host data); simpl;
    try apply reconcile_progress; reflexivity.
Qed.

Lemma pollTick_data_status (job : string) (data : jsval) (s : State) :
  miningStatus (hooks (pollTick_data host job data s))
  = if finalizes host data s
    then js_or (get data "message") (JStr "Mining completed successfully!")
    else if truthy data && gate host data s && negb (nullish (get data "message"))
         then get data "message"
         else miningStatus (hooks s).
Proof.
  rewrite pollTick_data_eq. unfold finalizes.
  destruct (truthy data); [|reflexivity].
  destruct (pollIntervalRef (refs s)), (completed host data); simpl;
    try apply reconcile_status; reflexivity.
Qed.

Lemma pollTick_data_phase (job : string) (data : jsval) (s : State) :
  phaseDetail (hooks (pollTick_data host job data s))
  = if truthy data && gate host data s
       && truthy (get data "phases") && is_object (get data "phases")
    then phaseDetail (hooks (classify_phase host (clamped_progress host data)
                               (get data "phases") s))
    else phaseDetail (hooks s).
Proof.
  rewrite pollTick_data_eq.
  destruct (truthy data); [|reflexivity].
  destruct (pollIntervalRef (refs s)), (completed host data); simpl;
    apply reconcile_phase.
Qed.

(** A tick that does not run the completion branch leaves the outcome of
    the run alone. *)
Lemma pollTick_data_not_final (job : string) (data : jsval) (s : State) :
  finalizes host data s = false ->
  let s' := pollTick_data host job data s in
  isMining (hooks s') = isMining (hooks s)
  /\ miningResult (hooks s') = miningResult (hooks s)
  /\ jobId (hooks s') = jobId (hooks s)
  /\ pollInterval (hooks s') = pollInterval (hooks s)
  /\ pollIntervalRef (refs s') = pollIntervalRef (refs s)
  /\ completedShownRef (refs s') = completedShownRef (refs s)
  /\ world s' = world s.
Proof.
  intros Hf s'. subst s'. rewrite pollTick_data_eq. unfold finalizes in Hf.
  destruct (truthy data); [|repeat split].
  destruct (reconcile_rest data s) as (Hj & _ & Hm & Hr & Hp).
  assert (Hdone : match pollIntervalRef (refs s) with
                  | Some id =>
                      if completed host data
                      then finalize_from_poll host job data id (reconcile host data s)
                      else reconcile host data s
                  | None => reconcile host data s
                  end = reconcile host data s).
  { destruct (pollIntervalRef (refs s)); [|reflexivity].
    destruct (completed host data); [discriminate | reflexivity]. }
  rewrite Hdone, reconcile_refs, reconcile_world. repeat split; assumption.
Qed.

(** What the completion branch leaves behind. *)
Lemma pollTick_data_final (job : string) (data : jsval) (s : State) :
  finalizes host data s = true ->
  let s' := pollTick_data host job data s in
  isMining (hooks s') = false
  /\ miningResult (hooks s')
     = Some {| downloadUrl := JStr (download_result_url host job);
               patternsCount := JUndefined |}
  /\ completedShownRef (refs s') = true
  /\ pollIntervalRef (refs s') = None
  /\ pollInterval (hooks s') = None
  /\ toasts (world s')
     = toasts (world s) ++ [ToastSuccess "Mining completed successfully!"]
  /\ console (world s') = console (world s)
  /\ requests (world s') = requests (world s).
Proof.
  intros Hf s'. subst s'. rewrite pollTick_data_eq. unfold finalizes in Hf.
  destruct (truthy data); [|discriminate].
  destruct (pollIntervalRef (refs s)) as [id|];
    [|now rewrite andb_false_r in Hf].
  destruct (completed host data); [|discriminate].
  simpl. rewrite reconcile_world. repeat split.
Qed.

Lemma phase_update_name (name : string) (c : jsval) (prev : option PhaseDetail) :
  phase_name (phase_update name c prev) = Some name.
Proof.
  unfold phase_update, phase_name. destruct prev as [d|]; [|reflexivity].
  destruct (String.eqb (phase d) name) eqn:E; [|reflexivity].
  apply String.eqb_eq in E. now destruct (num_gt _ _); simpl; rewrite ?E.
Qed.

(** On a counter, [Number(c.total) > 1] reads the number that is there. *)
Lemma counter_gt1_spec (c : jsval) :
  is_counter c && num_gt (Number host (get c "total")) one = counter_gt1 c.
Proof.
  unfold counter_gt1, is_counter.
  destruct (truthy c); [|reflexivity].
  destruct (is_number (get c "current")); [|reflexivity].
  now destruct (get c "total").
Qed.

Lemma counter_gt1_not_le1 (c : jsval) :
  counter_gt1 c = true ->
  truthy c && num_le (Number host (get c "total")) one = false.
Proof.
  unfold counter_gt1, is_counter. intros H.
  destruct (truthy c); [|reflexivity].
  destruct (is_number (get c "current")); [|discriminate].
  destruct (get c "total") as [| | |n| |]; try discriminate.
  simpl in *. now apply num_lt_not_le.
Qed.

(** The three bands of the classifier. *)
Lemma classify_low (p : num) (ph : jsval) (s : State) :
  num_lt p (ofZ 20) = true ->
  phaseDetail (hooks (classify_phase host p ph s))
  = if counter_gt1 (get ph "sampling")
    then phase_update "sampling" (get ph "sampling") (phaseDetail (hooks s))
    else None.
Proof.
  intros H. unfold classify_phase. rewrite H, counter_gt1_spec.
  now destruct (counter_gt1 _).
Qed.

Lemma classify_mid (p : num) (ph : jsval) (s : State) :
  num_ge p (ofZ 20) = true -> num_lt p (ofZ 95) = true ->
  phaseDetail (hooks (classify_phase host p ph s))
  = if truthy (get ph "search_trials")
       && num_le (Number host (get (get ph "search_trials") "total")) one
    then None
    else if counter_gt1 (get ph "search_trials")
         then phase_update "search_trials" (get ph "search_trials")
                (phaseDetail (hooks s))
         else phaseDetail (hooks s).
Proof.
  intros H20 H95. unfold classify_phase.
  rewrite (num_le_not_lt _ _ H20), H20, H95.
  assert (num_ge p (ofZ 95) = false) as -> by now apply num_lt_not_le.
  simpl. rewrite counter_gt1_spec.
  destruct (truthy _ && num_le _ _); [reflexivity|].
  now destruct (counter_gt1 _).
Qed.

Lemma classify_high (p : num) (ph : jsval) (s : State) :
  num_ge p (ofZ 95) = true ->
  phaseDetail (hooks (classify_phase host p ph s))
  = if is_counter (get ph "saving")
    then phase_update "saving" (get ph "saving") (phaseDetail (hooks s))
    else if counter_gt1 (get ph "search_trials")
         then phase_update "search_trials" (get ph "search_trials")
                (phaseDetail (hooks s))
         else phaseDetail (hooks s).
Proof.
  intros H95. unfold classify_phase.
  destruct (num_ge_95_not_lt_20 p H95) as [-> ->]. rewrite H95.
  assert (num_lt p (ofZ 95) = false) as -> by now apply num_le_not_lt.
  simpl. rewrite counter_gt1_spec.
  destruct (is_counter (get ph "saving")); [reflexivity|].
  now destruct (counter_gt1 _).
Qed.

(** C5, as the code has it.  The classifier sets [phaseDetail] from the
    clamped progress and the counters: below 20, "sampling" when the sampling
    counter has a total above 1, else none; from 20 to below 95, none when a
    search counter is there with a total of at most 1, "search_trials" when
    it has a total above 1, and the phase it found otherwise; from 95 on,
    "saving" when a saving counter is there, else "search_trials" when the
    search counter has a total above 1, else the phase it found.  The card
    shows a phase line only for a total above 1, so that a phase whose
    counter has a total of at most 1 is never shown. *)
Theorem C5_phase_classifier (p : num) (ph : jsval) (s : State) :
  let sampling := get ph "sampling" in
  let search := get ph "search_trials" in
  let saving := get ph "saving" in
  let pd := phaseDetail (hooks s) in
  let pd' := phaseDetail (hooks (classify_phase host p ph s)) in
  (num_lt p (ofZ 20) = true ->
     pd' = if counter_gt1 sampling then phase_update "sampling" sampling pd
           else None)
  /\ (num_ge p (ofZ 20) = true -> num_lt p (ofZ 95) = true ->
      pd' = if truthy search && num_le (Number host (get search "total")) one
            then None
            else if counter_gt1 search
                 then phase_update "search_trials" search pd
                 else pd)
  /\ (num_ge p (ofZ 95) = true ->
      pd' = if is_counter saving then phase_update "saving" saving pd
            else if counter_gt1 search
                 then phase_update "search_trials" search pd
                 else pd)
  /\ (forall name c prev, phase_name (phase_update name c prev) = Some name)
  /\ (forall h d, shown_phase h = Some d ->
        phaseDetail h = Some d /\ num_gt (total d) one = true).
Proof.
  intros sampling search saving pd pd'.
  split; [apply classify_low|].
  split; [apply classify_mid|].
  split; [apply classify_high|].
  split; [apply phase_update_name|].
  intros h d. unfold shown_phase, phase_line_shown.
  destruct (isMining h); [|discriminate].
  destruct (phaseDetail h) as [d'|]; [|discriminate].
  destruct (num_gt (total d') one) eqn:Hgt; simpl; [|discriminate].
  destruct (negb _ && _); [|discriminate].
  intros [= <-]. now split.
Qed.

(** C9, as the code has it.  A tick that does not run the completion branch
    writes the message of the snapshot when the clamped progress is at or
    above the previous maximum minus 0.5 and the message is not null, and
    leaves the displayed message alone otherwise; a tick that runs the
    completion branch writes the message of the snapshot, or the default
    completion text when that message is empty or absent, whatever its
    progress. *)
Theorem C9_message_gate (job : string) (data : jsval) (s : State) :
  let status' := miningStatus (hooks (pollTick_data host job data s)) in
  (finalizes host data s = false ->
     (truthy data = true -> gate host data s = true ->
      nullish (get data "message") = false -> status' = get data "message")
     /\ (gate host data s = false \/ nullish (get data "message") = true ->
         status' = miningStatus (hooks s)))
  /\ (finalizes host data s = true ->
      status' = js_or (get data "message") (JStr "Mining completed successfully!")).
Proof.
  intros status'. subst status'. rewrite pollTick_data_status. split.
  - intros ->. split.
    + now intros -> -> ->.
    + intros [-> | ->]; now rewrite ?andb_false_r.
  - now intros ->.
Qed.

(** The line of a phase other than "search_trials" does not depend on the
    message. *)
Lemma phase_line_shown_other (pd : PhaseDetail) (status status' : jsval) :
  phase pd <> "search_trials" ->
  phase_line_shown pd status = phase_line_shown pd status'.
Proof.
  intros Hne. unfold phase_line_shown.
  apply String.eqb_neq in Hne. now rewrite Hne.
Qed.

(** C10.  With the clamped progress in [20,95), a snapshot without a
    [search_trials] entry leaves [phaseDetail] as it was, and a tick clears
    a [phaseDetail] that was there only if the snapshot has a search counter
    whose total is at most 1.  On the card too a phase such as "sampling"
    stays as it was shown, as long as the snapshot does not end the run. *)
Theorem C10_phase_kept_without_search_counter (job : string) (data : jsval)
  (s : State) :
  num_ge (clamped_progress host data) (ofZ 20) = true ->
  num_lt (clamped_progress host data) (ofZ 95) = true ->
  let search := get (get data "phases") "search_trials" in
  let s' := pollTick_data host job data s in
  (search = JUndefined -> phaseDetail (hooks s') = phaseDetail (hooks s))
  /\ (phaseDetail (hooks s) <> None -> phaseDetail (hooks s') = None ->
      truthy search = true
      /\ num_le (Number host (get search "total")) one = true)
  /\ (search = JUndefined -> finalizes host data s = false ->
      phase_name (phaseDetail (hooks s)) <> Some "search_trials" ->
      shown_phase (hooks s') = shown_phase (hooks s)).
Proof.
  intros H20 H95 search s'. subst search s'.
  assert (Hkept : get (get data "phases") "search_trials" = JUndefined ->
                  phaseDetail (hooks (pollTick_data host job data s))
                  = phaseDetail (hooks s)).
  { intros Habsent.
    rewrite pollTick_data_phase, (classify_mid _ _ _ H20 H95), Habsent.
    now destruct (_ && is_object (get data "phases")). }
  split; [exact Hkept|]. split.
  - rewrite pollTick_data_phase, (classify_mid _ _ _ H20 H95).
    destruct (_ && is_object (get data "phases")); [|contradiction].
    intros Hsome Hnone.
    assert (Hupd : phase_update "search_trials"
                     (get (get data "phases") "search_trials")
                     (phaseDetail (hooks s)) <> None).
    { intros Hn.
      pose proof (phase_update_name "search_trials"
                    (get (get data "phases") "search_trials")
                    (phaseDetail (hooks s))) as Hname.
      rewrite Hn in Hname. discriminate. }
    destruct (truthy (get (get data "phases") "search_trials")); simpl in Hnone.
    + destruct (num_le _ one); [now split|].
      destruct (counter_gt1 _); contradiction.
    + destruct (counter_gt1 _); contradiction.
  - intros Habsent Hf Hother. unfold shown_phase.
    destruct (pollTick_data_not_final job data s Hf) as (-> & _).
    rewrite (Hkept Habsent).
    destruct (isMining (hooks s)); [|reflexivity].
    destruct (phaseDetail (hooks s)) as [pd|]; [|reflexivity].
    rewrite (phase_line_shown_other pd _ (miningStatus (hooks s))); [reflexivity|].
    intros Heq. apply Hother. simpl. now rewrite Heq.
Qed.

(** A snapshot without a [progress] field that does not report completion
    puts [NaN] on display: [Number(undefined)] is [NaN], which is not
    nullish, so the [?? 0] never applies, and [Math.max] and [Math.min]
    pass [NaN] on. *)
Lemma missing_progress_is_NaN (job : string) (data : jsval) (s : State) :
  truthy data = true ->
  get data "progress" = JUndefined ->
  is_str (get data "status") "completed" = false ->
  miningProgress (hooks (pollTick_data host job data s)) = NaN
  /\ maxProgressSeenRef (refs (pollTick_data host job data s)) = NaN.
Proof.
  intros Ht Hp Hs.
  assert (Hc : clamped_progress host data = NaN)
    by (unfold clamped_progress; now rewrite Hp).
  assert (Hf : finalizes host data s = false).
  { unfold finalizes, completed. now rewrite Hc, Hs, andb_false_r. }
  split.
  - rewrite pollTick_data_progress, Hf, Ht, Hc.
    now destruct (miningProgress (hooks s)).
  - rewrite pollTick_data_eq, Ht.
    assert (Hd : completed host data = false)
      by (unfold completed; now rewrite Hc, Hs).
    rewrite Hd.
    destruct (pollIntervalRef (refs s)); rewrite reconcile_refs, Hc; simpl;
      now destruct (maxProgressSeenRef (refs s)).
Qed.

(** For a progress that reads as a number, the clamp, the maximum and the
    bounds are as C2 says. *)
Lemma clamped_in_range (data : jsval) :
  Number host (get data "progress") <> NaN ->
  in_range (clamped_progress host data).
Proof.
  unfold clamped_progress, in_range, js_coalesce. simpl.
  destruct (Number host (get data "progress")) as [| |q|]; intros Hn;
    try contradiction; simpl; try (split; reflexivity).
  destruct (Qle_bool q 0) eqn:E0; simpl.
  - split; reflexivity.
  - destruct (Qle_bool 100 q) eqn:E1; simpl.
    + split; reflexivity.
    + num_cases. split; num_cases.
Qed.

Lemma numeric_progress_monotone (job : string) (data : jsval) (s : State) :
  in_range (miningProgress (hooks s)) ->
  Number host (get data "progress") <> NaN ->
  in_range (miningProgress (hooks (pollTick_data host job data s)))
  /\ num_le (miningProgress (hooks s))
            (miningProgress (hooks (pollTick_data host job data s))) = true.
Proof.
  intros [H0 H100] Hn. rewrite pollTick_data_progress.
  destruct (clamped_in_range data Hn) as [C0 C100].
  destruct (finalizes host data s); [now repeat split|].
  destruct (truthy data).
  - destruct (miningProgress (hooks s)) as [| |a|]; try discriminate.
    destruct (clamped_progress host data) as [| |b|]; try discriminate.
    unfold Math_max, in_range. simpl.
    destruct (Qle_bool b a) eqn:E; simpl; repeat split; trivial.
    + now apply Qle_bool_iff, Qle_refl.
    + num_cases.
  - repeat split; trivial. destruct (miningProgress (hooks s)); try discriminate.
    now apply Qle_bool_iff, Qle_refl.
Qed.

End Tick.

(** C2 fails on the code.  In a run under way with 0 on display, a status
    body without a [progress] field puts [NaN] on display: the displayed
    progress is then outside [0,100] and not at or above the previous one. *)
Theorem C2_missing_progress_displays_NaN :
  let s := after started in
  let s' := after (started ++ [PollEnds 0 (Resolved snapshot_without_progress)]) in
  happens (started ++ [PollEnds 0 (Resolved snapshot_without_progress)])
  /\ isMining (hooks s) = true
  /\ miningProgress (hooks s) = zero
  /\ isMining (hooks s') = true
  /\ miningProgress (hooks s') = NaN
  /\ num_le (miningProgress (hooks s)) (miningProgress (hooks s')) = false
  /\ num_le zero (miningProgress (hooks s')) = false.
Proof. vm_compute. repeat split. Qed.

(** C5 as stated fails: at a progress of 50 with no search counter in the
    snapshot, the phase shown is still "sampling", not none. *)
Lemma C5_counterexample :
  let s := after sampling_then_mid in
  happens sampling_then_mid
  /\ isMining (hooks s) = true
  /\ miningProgress (hooks s) = ofZ 50
  /\ counter_gt1 (get (one_phase "sampling" (counter 3 10)) "search_trials") = false
  /\ phase_name (shown_phase (hooks s)) = Some "sampling".
Proof. vm_compute. repeat split. Qed.

Lemma C5_phase_classifier_witness :
  phaseDetail (hooks (classify_phase example_host (ofZ 10)
                        (one_phase "sampling" (counter 3 10)) (after started)))
  = Some {| current := ofZ 3; total := ofZ 10; phase := "sampling" |}
  /\ phaseDetail (hooks (classify_phase example_host (ofZ 50)
                           (one_phase "search_trials" (counter 0 1))
                           (after sampling_then_mid)))
     = None
  /\ phaseDetail (hooks (classify_phase example_host (ofZ 97)
                           (one_phase "saving" (counter 2 5)) (after started)))
     = Some {| current := ofZ 2; total := ofZ 5; phase := "saving" |}.
Proof.
  split; [|split].
  - exact (proj1 (C5_phase_classifier example_host (ofZ 10)
                    (one_phase "sampling" (counter 3 10)) (after started))
             eq_refl).
  - exact (proj1 (proj2 (C5_phase_classifier example_host (ofZ 50)
                           (one_phase "search_trials" (counter 0 1))
                           (after sampling_then_mid)))
             eq_refl eq_refl).
  - exact (proj1 (proj2 (proj2 (C5_phase_classifier example_host (ofZ 97)
                                  (one_phase "saving" (counter 2 5))
                                  (after started))))
             eq_refl).
Defined.

(** C9 as stated fails: with a maximum of 50 seen, a snapshot at 10 that
    reports completion is below the threshold, and the displayed message
    changes from "halfway" to "finished". *)
Lemma C9_counterexample :
  let s := after halfway in
  let s' := after (halfway ++ [PollEnds 0 (Resolved completed_at_10)]) in
  happens (halfway ++ [PollEnds 0 (Resolved completed_at_10)])
  /\ isMining (hooks s) = true
  /\ maxProgressSeenRef (refs s) = ofZ 50
  /\ clamped_progress example_host completed_at_10 = ofZ 10
  /\ gate example_host completed_at_10 s = false
  /\ miningStatus (hooks s) = JStr "halfway"
  /\ miningStatus (hooks s') = JStr "finished".
Proof. vm_compute. repeat split. Qed.

Lemma C9_message_gate_witness :
  miningStatus (hooks (pollTick_data example_host "j"
                         (snapshot 30 "running" "stale" JUndefined)
                         (after halfway)))
  = JStr "halfway"
  /\ miningStatus (hooks (pollTick_data example_host "j" completed_at_10
                            (after halfway)))
     = JStr "finished".
Proof.
  split.
  - apply (proj2 (proj1 (C9_message_gate example_host "j"
                           (snapshot 30 "running" "stale" JUndefined)
                           (after halfway))
                    eq_refl)).
    left. reflexivity.
  - exact (proj2 (C9_message_gate example_host "j" completed_at_10
                    (after halfway))
             eq_refl).
Defined.

Lemma C10_phase_kept_without_search_counter_witness :
  phaseDetail (hooks (pollTick_data example_host "j"
                        (snapshot 50 "running" "Searching"
                           (one_phase "sampling" (counter 3 10)))
                        (after (firstn 4 sampling_then_mid))))
  = phaseDetail (hooks (after (firstn 4 sampling_then_mid))).
Proof.
  exact (proj1 (C10_phase_kept_without_search_counter example_host "j"
                  (snapshot 50 "running" "Searching"
                     (one_phase "sampling" (counter 3 10)))
                  (after (firstn 4 sampling_then_mid))
                  eq_refl eq_refl)
           eq_refl).
Defined.

(** ** Renders and the intervals *)

Lemma deps_eqb_eq (a b : bool * string) : deps_eqb a b = true <-> a = b.
Proof.
  destruct a as [a1 a2], b as [b1 b2]. unfold deps_eqb. simpl.
  rewrite andb_true_iff, Bool.eqb_true_iff, String.eqb_eq.
  split; [intros [-> ->]; reflexivity | intros [= -> ->]; now split].
Qed.

Lemma render_same (s : State) : eff_deps (world s) = deps_of s -> render s = s.
Proof.
  intros H. unfold render. rewrite H.
  now rewrite (proj2 (deps_eqb_eq _ _) eq_refl).
Qed.

(** A render writes the progress cells, the interval cells and the
    bookkeeping of the effect; the rest it leaves alone. *)
Lemma render_frame (s : State) :
  jobId (hooks (render s)) = jobId (hooks s)
  /\ form (hooks (render s)) = form (hooks s)
  /\ isMining (hooks (render s)) = isMining (hooks s)
  /\ miningResult (hooks (render s)) = miningResult (hooks s)
  /\ completedShownRef (refs (render s)) = completedShownRef (refs s)
  /\ toasts (world (render s)) = toasts (world s)
  /\ console (world (render s)) = console (world s)
  /\ requests (world (render s)) = requests (world s)
  /\ polls (world (render s)) = polls (world s)
  /\ posts (world (render s)) = posts (world s)
  /\ fetches (world (render s)) = fetches (world s).
Proof.
  unfold render, effect_body, effect_cleanup, setInterval.
  break_ifs; simpl; repeat split.
Qed.

Lemma filter_live_timer (id : positive) (job : string) :
  filter (fun t => t_timer t <> id) [ {| t_timer := id; t_jobId := job |} ] = [].
Proof.
  rewrite filter_cons, filter_nil. destruct (decide _) as [H|H]; [|reflexivity].
  now contradiction H.
Qed.

Lemma filter_other_timer (id id' : positive) (job : string) :
  id' <> id ->
  filter (fun t => t_timer t <> id) [ {| t_timer := id'; t_jobId := job |} ]
  = [ {| t_timer := id'; t_jobId := job |} ].
Proof.
  intros Hne. rewrite filter_cons, filter_nil.
  destruct (decide _) as [H|H]; [reflexivity|]. now contradiction H.
Qed.

Lemma render_rendered (s : State) :
  timers_sound s ->
  (eff_deps (world s) = deps_of s -> rendered s) ->
  rendered (render s).
Proof.
  intros (Ht & Hid & Href & Hpi & Hcl) Hsame.
  unfold render. destruct (deps_eqb (deps_of s) (eff_deps (world s))) eqn:E.
  { apply Hsame. symmetry. now apply deps_eqb_eq. }
  clear Hsame E.
  assert (Hclean : let s1 := effect_cleanup s in
            timers (world s1) = [] /\ pollIntervalRef (refs s1) = None
            /\ hooks s1 = hooks s /\ nextTimer (world s1) = nextTimer (world s)
            /\ posts (world s1) = posts (world s)
            /\ eff_intervalId (world s1) = eff_intervalId (world s)).
  { unfold effect_cleanup, live_timer in *.
    destruct (eff_intervalId (world s)) as [id|] eqn:Eid; simpl.
    - repeat split; trivial.
      destruct Ht as [-> | ->]; [reflexivity | apply filter_live_timer].
    - repeat split; trivial.
      + destruct Ht as [-> | ->]; reflexivity.
      + destruct Href as [-> | ->]; reflexivity. }
  destruct Hclean as (Ht1 & Hr1 & Hh1 & Hn1 & Hp1 & He1).
  set (s1 := effect_cleanup s) in *. clearbody s1.
  unfold effect_body.
  destruct (isMining (hooks s1) && truthy (JStr (jobId (hooks s1)))) eqn:Em.
  - unfold rendered, timers_sound, live_timer, setInterval, deps_of. simpl.
    rewrite Ht1, Hn1, Hp1. simpl.
    apply andb_true_iff in Em as [Em _].
    repeat split; trivial; try (now right);
      try (intros id [= <-]; lia);
      match goal with
      | Hc : _ ∈ posts _, Hi : c_pollInterval _ = Some _ |- _ =>
          destruct (Hcl _ _ Hc Hi) as [Hlt _]; try intros ?; simplify_eq; lia
      end.
  - unfold rendered, timers_sound, live_timer, deps_of. simpl.
    rewrite Ht1, Hr1, Hn1, Hp1, Hh1.
    repeat split; trivial; try (now left); try discriminate.
    all: match goal with
         | Hc : _ ∈ posts _, Hi : c_pollInterval _ = Some _ |- _ =>
             now destruct (Hcl _ _ Hc Hi) as [Hlt _]
         end.
Qed.

Lemma timers_sound_ext (s s2 : State) :
  timers (world s2) = timers (world s) ->
  nextTimer (world s2) = nextTimer (world s) ->
  eff_deps (world s2) = eff_deps (world s) ->
  eff_intervalId (world s2) = eff_intervalId (world s) ->
  (forall c, c ∈ posts (world s2) -> c ∈ posts (world s)) ->
  pollIntervalRef (refs s2) = pollIntervalRef (refs s) ->
  pollInterval (hooks s2) = pollInterval (hooks s) ->
  timers_sound s -> timers_sound s2.
Proof.
  intros Ht Hn Hd He Hp Hr Hi. unfold timers_sound, live_timer.
  rewrite Ht, Hn, Hd, He, Hr, Hi.
  intros (H1 & H2 & H3 & H4 & H5). repeat split; trivial.
  all: intros; now apply (H5 c id); auto.
Qed.

Lemma rendered_ext (s s2 : State) :
  timers (world s2) = timers (world s) ->
  nextTimer (world s2) = nextTimer (world s) ->
  eff_deps (world s2) = eff_deps (world s) ->
  eff_intervalId (world s2) = eff_intervalId (world s) ->
  (forall c, c ∈ posts (world s2) -> c ∈ posts (world s)) ->
  pollIntervalRef (refs s2) = pollIntervalRef (refs s) ->
  pollInterval (hooks s2) = pollInterval (hooks s) ->
  isMining (hooks s2) = isMining (hooks s) ->
  jobId (hooks s2) = jobId (hooks s) ->
  rendered s -> rendered s2.
Proof.
  intros Ht Hn Hd He Hp Hr Hi Hm Hj (Hs & H1 & H2 & H3).
  split; [now apply (timers_sound_ext s)|].
  unfold live_timer, deps_of in *. rewrite Ht, Hd, He, Hm, Hj. now repeat split.
Qed.

(** While not mining there is no interval. *)
Lemma rendered_idle (s : State) :
  rendered s -> isMining (hooks s) = false ->
  eff_intervalId (world s) = None /\ timers (world s) = [].
Proof.
  intros (_ & _ & Ht & Hm) Hidle. unfold live_timer in Ht.
  destruct (eff_intervalId (world s)) as [id|]; [|now split].
  rewrite (Hm id eq_refl) in Hidle. discriminate.
Qed.

Section Reachable.

Variable host : Host.

Lemma startMining_rendered (s : State) :
  rendered s -> isMining (hooks s) = false ->
  truthy (JStr (jobId (hooks s))) = true ->
  rendered (render (startMining s)).
Proof.
  intros Hr Hidle Hjob.
  destruct (rendered_idle s Hr Hidle) as [He Ht].
  destruct Hr as ((_ & Hid & Href & Hpi & Hcl) & Hd & _ & _).
  unfold startMining. rewrite Hjob. simpl.
  apply render_rendered.
  - unfold timers_sound, live_timer. simpl. rewrite He, Ht. rewrite He in Href.
    repeat split; trivial; try (now left); try discriminate.
    match goal with
    | Hc : _ ∈ _ ++ [_] |- _ =>
        apply elem_of_app in Hc as [Hc | Hc%list_elem_of_singleton]
    end;
      [ now apply (Hcl c id) | subst c; now apply Hpi ].
  - simpl. unfold deps_of in *. simpl. rewrite Hd, Hidle. discriminate.
Qed.

Lemma pollTick_rendered (job : string) (o : Outcome) (s : State) :
  rendered s -> rendered (render (pollTick host job o s)).
Proof.
  intros Hr. destruct o as [e | data]; simpl.
  { rewrite render_same; [now apply (rendered_ext s) |].
    destruct Hr as (_ & Hd & _). exact Hd. }
  destruct (finalizes host data s) eqn:Hf.
  - (* the completion branch clears the live interval and ends the run *)
    destruct (pollTick_data_final host job data s Hf) as (Hm & _ & _ & Href & Hpi & _).
    pose proof Hf as Hf'. unfold finalizes in Hf'.
    rewrite pollTick_data_eq in *.
    destruct (truthy data); [|discriminate].
    destruct (pollIntervalRef (refs s)) as [id|] eqn:Hid;
      [|now rewrite andb_false_r in Hf'].
    destruct (completed host data); [|discriminate].
    destruct Hr as ((Ht & Hlt & Href0 & Hpi0 & Hcl) & Hd & Hlive & Hmine).
    rewrite Hid in Href0. destruct Href0 as [|He]; [discriminate|].
    symmetry in He.
    apply render_rendered.
    + unfold timers_sound. rewrite Href, Hpi.
      unfold finalize_from_poll, live_timer. simpl.
      rewrite !reconcile_world, Hlive. unfold live_timer. rewrite He.
      rewrite filter_live_timer.
      repeat split; trivial; try (now left); try discriminate.
      * intros i [= <-]. now apply Hlt.
      * match goal with
        | Hc : _ ∈ posts _, Hi : c_pollInterval _ = Some _ |- _ =>
            now destruct (Hcl _ _ Hc Hi)
        end.
      * match goal with
        | Hc : _ ∈ posts _, Hi : c_pollInterval _ = Some _ |- _ =>
            destruct (Hcl _ _ Hc Hi) as [_ Hne]; now rewrite He in Hne
        end.
    + unfold deps_of. rewrite Hm. unfold finalize_from_poll. simpl.
      rewrite reconcile_world, Hd. unfold deps_of. rewrite (Hmine id He).
      discriminate.
  - destruct (pollTick_data_not_final host job data s Hf)
      as (Hm & _ & Hj & Hpi & Href & _ & Hw).
    rewrite render_same.
    + apply (rendered_ext s); trivial; now rewrite Hw.
    + rewrite Hw. unfold deps_of. rewrite Hm, Hj. now destruct Hr as (_ & -> & _).
Qed.

Lemma finally_rendered (c : StartClosure) (s : State) :
  rendered s ->
  (forall id, c_pollInterval c = Some id ->
     (id < nextTimer (world s))%positive /\ eff_intervalId (world s) <> Some id) ->
  rendered (render (startMining_finally c s)).
Proof.
  intros Hr Hc.
  assert (Hkeep : timers (world (startMining_finally c s)) = timers (world s)).
  { unfold startMining_finally. destruct (c_pollInterval c) as [id0|]; [|reflexivity].
    simpl. destruct Hr as (_ & _ & -> & _). unfold live_timer.
    destruct (eff_intervalId (world s)) as [id|]; [|reflexivity].
    apply filter_other_timer. destruct (Hc id0 eq_refl) as [_ Hne]. congruence. }
  assert (Hsound : timers_sound (startMining_finally c s)).
  { destruct Hr as ((Ht & Hlt & Href & Hpi & Hcl) & _).
    unfold timers_sound. rewrite Hkeep.
    unfold startMining_finally, live_timer in *.
    destruct (c_pollInterval c); simpl; repeat split; trivial; try discriminate.
    all: match goal with
         | Hp : _ ∈ posts _, Hi : c_pollInterval _ = Some _ |- _ =>
             now destruct (Hcl _ _ Hp Hi)
         end. }
  apply render_rendered; [exact Hsound|].
  intros Hsame. split; [exact Hsound|]. split; [exact Hsame|].
  assert (Hidle : isMining (hooks s) = false).
  { destruct Hr as (_ & Hd & _).
    assert (Hw : eff_deps (world (startMining_finally c s)) = eff_deps (world s))
      by (unfold startMining_finally; now destruct (c_pollInterval c)).
    rewrite Hw, Hd in Hsame. unfold deps_of in Hsame.
    assert (Hm : isMining (hooks (startMining_finally c s)) = false)
      by (unfold startMining_finally; now destruct (c_pollInterval c)).
    rewrite Hm in Hsame. congruence. }
  destruct (rendered_idle s Hr Hidle) as [He Ht].
  assert (He' : eff_intervalId (world (startMining_finally c s)) = None)
    by (unfold startMining_finally; now destruct (c_pollInterval c)).
  rewrite Hkeep, Ht. unfold live_timer. rewrite He'. split; [reflexivity|].
  discriminate.
Qed.

Lemma closure_sound (s : State) (k : nat) (c : StartClosure) :
  rendered s -> posts (world s) !! k = Some c ->
  forall id, c_pollInterval c = Some id ->
    (id < nextTimer (world s))%positive /\ eff_intervalId (world s) <> Some id.
Proof.
  intros ((_ & _ & _ & _ & Hcl) & _) Hk id Hid.
  apply (Hcl c id); [|exact Hid]. apply list_elem_of_lookup. now exists k.
Qed.

Lemma startMining_rejected_rendered (c : StartClosure) (e : jsval) (s : State) :
  rendered s ->
  (forall id, c_pollInterval c = Some id ->
     (id < nextTimer (world s))%positive /\ eff_intervalId (world s) <> Some id) ->
  rendered (render (startMining_rejected c e s)).
Proof.
  intros Hr Hc. unfold startMining_rejected.
  destruct (prop e "response"); apply finally_rendered; trivial;
    now apply (rendered_ext s).
Qed.

Lemma startMining_resolved_rendered (c : StartClosure) (data : jsval) (s : State) :
  rendered s ->
  (forall id, c_pollInterval c = Some id ->
     (id < nextTimer (world s))%positive /\ eff_intervalId (world s) <> Some id) ->
  rendered (render (startMining_resolved host c data s)).
Proof.
  intros Hr Hc. unfold startMining_resolved.
  destruct (prop data "download_url"); [|now apply startMining_rejected_rendered].
  destruct (negb (completedShownRef _)); apply finally_rendered; trivial;
    now apply (rendered_ext s).
Qed.

Lemma initData_rendered (urlJobId : option string) (o : HistoryOutcome) (s : State) :
  rendered s -> rendered (render (initData_ends host urlJobId o s)).
Proof.
  intros Hr. pose proof Hr as ((Ht & Hlt & Href & Hpi & Hcl) & Hd & Hlive & Hmine).
  assert (Hs : forall s', rendered s' -> rendered (render s')).
  { intros s' Hr'. rewrite render_same; [exact Hr' | now destruct Hr' as (_ & -> & _)]. }
  destruct o as [e | r]; simpl.
  { apply Hs. now apply (rendered_ext s). }
  destruct (selected_job host urlJobId r) as [j|]; [|now apply Hs].
  apply render_rendered.
  - now apply (timers_sound_ext s).
  - simpl. unfold deps_of. simpl. intros Hsame.
    apply (rendered_ext s); trivial. simpl.
    rewrite Hd in Hsame. unfold deps_of in Hsame. congruence.
Qed.

(** Every event keeps what holds after a render. *)
Lemma step_rendered (e : Event) (s s' : State) :
  rendered s -> step host e s = Some s' -> rendered s'.
Proof.
  intros Hr. pose proof Hr as (_ & Hd & _).
  destruct e as [v | v | | id | k o | k o | k o]; cbn [step].
  - intros [= <-]. rewrite render_same; [now apply (rendered_ext s) | exact Hd].
  - intros [= <-]. rewrite render_same; [now apply (rendered_ext s) | exact Hd].
  - destruct (isMining (hooks s)) eqn:Hm; cbn [negb andb]; [discriminate|].
    destruct (truthy (JStr (jobId (hooks s)))) eqn:Hj; [|discriminate].
    intros [= <-]. now apply startMining_rendered.
  - destruct (find _ _); [|discriminate].
    intros [= <-]. rewrite render_same; [now apply (rendered_ext s) | exact Hd].
  - destruct (polls (world s) !! k) as [t|]; [|discriminate].
    intros [= <-]. apply pollTick_rendered. now apply (rendered_ext s).
  - destruct (posts (world s) !! k) as [c|] eqn:Hk; [|discriminate].
    intros [= <-].
    assert (Hr0 : rendered (set_posts (delete k (posts (world s))) s)).
    { apply (rendered_ext s); trivial. intros c'. apply list_elem_of_delete_inv. }
    pose proof (closure_sound s k c Hr Hk) as Hc.
    destruct o; [now apply startMining_rejected_rendered
                | now apply startMining_resolved_rendered].
  - destruct (fetches (world s) !! k) as [u|]; [|discriminate].
    intros [= <-]. apply initData_rendered. now apply (rendered_ext s).
Qed.

Lemma init_rendered (urlJobId : option string) : rendered (init urlJobId).
Proof.
  unfold rendered, timers_sound, live_timer, init. simpl.
  repeat split; trivial; try (now left); try discriminate.
  all: match goal with H : _ ∈ [] |- _ => now apply not_elem_of_nil in H end.
Qed.

Lemma run_rendered (es : list Event) (s s' : State) :
  rendered s -> run host es s = Some s' -> rendered s'.
Proof.
  revert s. induction es as [|e es IH]; simpl; intros s Hr.
  - now intros [= <-].
  - destruct (step host e s) as [s1|] eqn:E; [|discriminate].
    apply IH. now apply (step_rendered e s).
Qed.

Lemma reachable_rendered (s : State) : reachable host s -> rendered s.
Proof. intros (u & es & H). exact (run_rendered es _ _ (init_rendered u) H). Qed.

End Reachable.

(** ** Runs: start, ticks and completion *)

(** C4, as the code has it.  [startMining] turns a start down before any
    network call only when no job id is selected; with a job id it sends the
    start request with the pattern sizes as they were entered, whatever
    their order, and shows no error. *)
Theorem C4_start_guard (s : State) :
  let s' := startMining s in
  let body := formData_of (jobId (hooks s)) (form (hooks s)) in
  if truthy (JStr (jobId (hooks s)))
  then requests (world s') = requests (world s) ++ [Post "/api/mine-patterns" body]
       /\ ("min_pattern_size", minPatternSize (form (hooks s))) ∈ body
       /\ ("max_pattern_size", maxPatternSize (form (hooks s))) ∈ body
       /\ toasts (world s') = toasts (world s)
       /\ isMining (hooks s') = true
  else requests (world s') = requests (world s)
       /\ toasts (world s')
          = toasts (world s) ++ [ToastError "Please provide a Job ID" None]
       /\ hooks s' = hooks s.
Proof.
  intros s' body. subst s' body. unfold startMining.
  destruct (truthy (JStr (jobId (hooks s)))); simpl.
  - repeat split; unfold formData_of.
    + apply list_elem_of_further, list_elem_of_here.
    + do 2 apply list_elem_of_further. apply list_elem_of_here.
  - repeat split.
Qed.

Section Runs.

Variable host : Host.

Lemma render_result (s : State) :
  miningResult (hooks (render s)) = miningResult (hooks s)
  /\ toasts (world (render s)) = toasts (world s)
  /\ completedShownRef (refs (render s)) = completedShownRef (refs s)
  /\ isMining (hooks (render s)) = isMining (hooks s).
Proof.
  destruct (render_frame s) as (_ & _ & Hm & Hr & Hc & Ht & _). now repeat split.
Qed.

Lemma finally_result (c : StartClosure) (s : State) :
  miningResult (hooks (startMining_finally c s)) = miningResult (hooks s)
  /\ toasts (world (startMining_finally c s)) = toasts (world s)
  /\ isMining (hooks (startMining_finally c s)) = false.
Proof. unfold startMining_finally. destruct (c_pollInterval c); now repeat split. Qed.


(** C3, as the code has it.  No run epoch or run id is checked.  What ends
    the polling of a superseded run is that its interval is cleared: in a
    reachable state only the interval of the current run can fire.  A status
    request already in flight is applied on arrival whatever interval sent
    it, with the job id its callback closed over; it cannot finalize
    anything while [pollIntervalRef.current] is null. *)
Theorem C3_stale_ticks (s : State) :
  reachable host s ->
  (forall id s', step host (TimerFires id) s = Some s' ->
     eff_intervalId (world s) = Some id
     /\ isMining (hooks s) = true
     /\ polls (world s')
        = polls (world s) ++ [ {| t_timer := id; t_jobId := jobId (hooks s) |} ])
  /\ (forall k t o,
       polls (world s) !! k = Some t ->
       step host (PollEnds k o) s
       = Some (render (pollTick host (t_jobId t) o
                         (set_polls (delete k (polls (world s))) s))))
  /\ (forall k o s',
       pollIntervalRef (refs s) = None ->
       step host (PollEnds k o) s = Some s' ->
       isMining (hooks s') = isMining (hooks s)
       /\ miningResult (hooks s') = miningResult (hooks s)
       /\ toasts (world s') = toasts (world s)).
Proof.
  intros Hreach. pose proof (reachable_rendered host s Hreach) as Hr.
  destruct Hr as (_ & Hd & Hlive & Hmine).
  split; [|split].
  - intros id s'. cbn [step].
    destruct (find _ _) as [t|] eqn:Hfind; [|discriminate].
    apply find_some in Hfind as [Hin Hid]. apply Pos.eqb_eq in Hid.
    rewrite Hlive in Hin. unfold live_timer in Hin.
    destruct (eff_intervalId (world s)) as [id'|] eqn:He; [|contradiction].
    destruct Hin as [<- | []]. simpl in Hid. subst id'.
    intros [= <-].
    destruct (render_frame
                (set_polls
                   (polls (world s) ++
                    [{| t_timer := id; t_jobId := (eff_deps (world s)).2 |}])
                   (send (Get ("/api/mining-status/" +:+ (eff_deps (world s)).2)) s)))
      as (_ & _ & _ & _ & _ & _ & _ & _ & Hp & _).
    simpl in Hp. simpl. rewrite Hp, Hd. repeat split. exact (Hmine id eq_refl).
  - intros k t o Hk. cbn [step]. now rewrite Hk.
  - intros k o s' Hnone. cbn [step].
    destruct (polls (world s) !! k) as [t|]; [|discriminate].
    intros [= <-].
    match goal with
    | |- context [render ?x] =>
        destruct (render_result x) as (Hres & Htoast & _ & Hmin)
    end.
    rewrite Hres, Htoast, Hmin. destruct o as [e | data]; simpl; [now repeat split|].
    assert (Hf : finalizes host data (set_polls (delete k (polls (world s))) s) = false).
    { unfold finalizes. simpl. rewrite Hnone. apply andb_false_r. }
    destruct (pollTick_data_not_final host (t_jobId t) data _ Hf)
      as (-> & -> & _ & _ & _ & _ & ->).
    now repeat split.
Qed.

(** C8, as the code has it.  A status request that is rejected is logged
    and skipped, and an empty payload is skipped without a log entry: in
    both cases nothing of the state changes, the interval stays alive and
    the user is shown nothing.  A start request that is rejected stops the
    poller, shows the error with its detail, else its message, else a
    generic description, and leaves the result as it was. *)
Theorem C8_poll_failures_and_start_rejection (s : State) :
  reachable host s ->
  (forall k e s',
     step host (PollEnds k (Rejected e)) s = Some s' ->
     hooks s' = hooks s /\ refs s' = refs s
     /\ timers (world s') = timers (world s)
     /\ toasts (world s') = toasts (world s)
     /\ console (world s')
        = console (world s) ++ [ConsoleWarn "Failed to poll progress" e])
  /\ (forall k data s',
       truthy data = false ->
       step host (PollEnds k (Resolved data)) s = Some s' ->
       hooks s' = hooks s /\ refs s' = refs s
       /\ timers (world s') = timers (world s)
       /\ toasts (world s') = toasts (world s)
       /\ console (world s') = console (world s))
  /\ (forall k e s',
       nullish e = false ->
       step host (PostEnds k (Rejected e)) s = Some s' ->
       timers (world s') = []
       /\ isMining (hooks s') = false
       /\ miningResult (hooks s') = miningResult (hooks s)
       /\ toasts (world s')
          = toasts (world s)
            ++ [ToastError "Mining failed"
                  (Some (js_or (js_or (opt_get (opt_get (get e "response") "data")
                                         "detail")
                                      (get e "message"))
                               (JStr "Unknown error occurred")))]).
Proof.
  intros Hreach. pose proof (reachable_rendered host s Hreach) as Hr.
  pose proof Hr as (_ & Hd & _).
  split; [|split].
  - intros k e s'. cbn [step].
    destruct (polls (world s) !! k) as [t|]; [|discriminate].
    intros [= <-]. rewrite render_same by exact Hd. now repeat split.
  - intros k data s' Hfalsy. cbn [step].
    destruct (polls (world s) !! k) as [t|]; [|discriminate].
    intros [= <-]. unfold pollTick, pollTick_data. rewrite Hfalsy.
    rewrite render_same by exact Hd. now repeat split.
  - intros k e s' Hval Hstep.
    pose proof (step_rendered host _ _ _ Hr Hstep) as Hr'.
    revert Hstep. cbn [step].
    destruct (posts (world s) !! k) as [c|]; [|discriminate].
    intros [= <-].
    match type of Hr' with
    | rendered (render ?x) =>
        destruct (render_result x) as (Hres & Htoast & _ & Hmin)
    end.
    assert (Hshape : exists response, prop e "response" = Some response
                                      /\ get e "response" = response).
    { unfold get. destruct e; try discriminate; simpl; eauto. }
    destruct Hshape as (response & Hp & Hg).
    unfold startMining_rejected in *. rewrite Hp in *. rewrite Hg. cbv zeta in *.
    match type of Hres with
    | context [startMining_finally c ?x] =>
        destruct (finally_result c x) as (Hres' & Htoast' & Hmin')
    end.
    rewrite Hres', Htoast', Hmin' in *.
    split; [|now repeat split].
    apply (rendered_idle _ Hr'). now rewrite Hmin.
Qed.

End Runs.

(** The states of the concrete runs are reachable. *)
Lemma after_reachable (es : list Event) (s : State) :
  run example_host es (init (Some "j")) = Some s -> reachable example_host s.
Proof. intros H. now exists (Some "j"), es. Defined.

(** C4 as stated fails: with a minimum of 5 and a maximum of 3 entered, the
    click sends the start request, with these two sizes in it, and shows no
    error. *)
Lemma C4_counterexample :
  let s := after max_below_min in
  let s' := after (max_below_min ++ [ClickStart]) in
  happens (max_below_min ++ [ClickStart])
  /\ num_lt (parseInt (maxPatternSize (form (hooks s))))
         (parseInt (minPatternSize (form (hooks s)))) = true
  /\ requests (world s) = [Get "api/history"]
  /\ requests (world s')
     = [ Get "api/history";
         Post "/api/mine-patterns"
           [ ("job_id", "j"); ("min_pattern_size", "5");
             ("max_pattern_size", "3"); ("min_neighborhood_size", "3");
             ("max_neighborhood_size", "5"); ("n_neighborhoods", "500");
             ("n_trials", "100"); ("out_batch_size", "3");
             ("search_strategy", "greedy"); ("sample_method", "tree");
             ("graph_type", "directed");
             ("graph_output_format", "representative") ] ]
  /\ toasts (world s') = []
  /\ isMining (hooks s') = true.
Proof. vm_compute. repeat split. Qed.



(** C3 as stated fails: the second run is under way, on interval 2, with 0
    on display; the status request that interval 1 of the first run left in
    flight is answered, and the second run shows its progress and message. *)
Lemma C3_counterexample :
  let s := after second_run in
  let s' := after (second_run
                   ++ [PollEnds 0 (Resolved (snapshot 80 "running" "run 1 at 80%"
                                               JUndefined))]) in
  happens (second_run
           ++ [PollEnds 0 (Resolved (snapshot 80 "running" "run 1 at 80%"
                                       JUndefined))])
  /\ polls (world s) = [ {| t_timer := 1; t_jobId := "j" |} ]
  /\ timers (world s) = [ {| t_timer := 2; t_jobId := "j" |} ]
  /\ pollIntervalRef (refs s) = Some 2%positive
  /\ miningProgress (hooks s) = zero
  /\ miningStatus (hooks s) = JStr "Starting miner..."
  /\ miningProgress (hooks s') = ofZ 80
  /\ miningStatus (hooks s') = JStr "run 1 at 80%".
Proof. vm_compute. repeat split. Qed.

(** The same stale request, had it reported completion, would have finalized
    the second run. *)
Example stale_tick_finalizes_second_run :
  let s' := after (second_run
                   ++ [PollEnds 0 (Resolved (snapshot 100 "completed" "run 1 done"
                                               JUndefined))]) in
  isMining (hooks s') = false
  /\ miningResult (hooks s')
     = Some {| downloadUrl := JStr "http://miner/api/download-result?job_id=j";
               patternsCount := JUndefined |}
  /\ timers (world s') = [].
Proof. vm_compute. repeat split. Qed.

Lemma C3_stale_ticks_witness :
  eff_intervalId (world (after second_run)) = Some 2%positive
  /\ isMining (hooks (after second_run)) = true
  /\ polls (world (after (second_run ++ [TimerFires 2])))
     = polls (world (after second_run))
       ++ [ {| t_timer := 2; t_jobId := jobId (hooks (after second_run)) |} ].
Proof.
  assert (Hrun : run example_host second_run (init (Some "j"))
                 = Some (after second_run)) by (vm_compute; reflexivity).
  apply (proj1 (C3_stale_ticks example_host (after second_run)
                  (after_reachable second_run _ Hrun))
           2%positive (after (second_run ++ [TimerFires 2]))).
  vm_compute; reflexivity.
Defined.

(** C8 as stated fails: a status request answered with a [null] body is
    skipped, but nothing is logged. *)
Lemma C8_counterexample :
  let s := after started in
  let s' := after (started ++ [PollEnds 0 (Resolved JNull)]) in
  happens (started ++ [PollEnds 0 (Resolved JNull)])
  /\ polls (world s) = [ {| t_timer := 1; t_jobId := "j" |} ]
  /\ polls (world s') = []
  /\ hooks s' = hooks s
  /\ console (world s) = []
  /\ console (world s') = [].
Proof. vm_compute. repeat split. Qed.

Lemma C8_poll_failures_and_start_rejection_witness :
  let gone := JObj (<["message" := JStr "Network Error"]> ∅) in
  let s := after started in
  let s' := after (started ++ [PostEnds 0 (Rejected gone)]) in
  timers (world s') = []
  /\ isMining (hooks s') = false
  /\ miningResult (hooks s') = miningResult (hooks s)
  /\ toasts (world s')
     = toasts (world s)
       ++ [ToastError "Mining failed"
             (Some (js_or (js_or (opt_get (opt_get (get gone "response") "data")
                                    "detail")
                                 (get gone "message"))
                          (JStr "Unknown error occurred")))].
Proof.
  intros gone s s'.
  assert (Hrun : run example_host started (init (Some "j")) = Some s)
    by (vm_compute; reflexivity).
  apply (proj2 (proj2 (C8_poll_failures_and_start_rejection example_host
                         s (after_reachable started _ Hrun)))
           0%nat gone s'); vm_compute; reflexivity.
Defined.

Example start_rejection_shows_message :
  toasts (world (after (started
                        ++ [PostEnds 0 (Rejected (JObj (<["message" := JStr "Network Error"]> ∅)))])))
  = [ToastError "Mining failed" (Some (JStr "Network Error"))].
Proof. vm_compute. reflexivity. Qed.

(** ** The job selector *)

Section JobSelector.

Variable host : Host.

Lemma abs_quot_seconds (d : Z) : Z.abs (Z.quot d 1000) < 60 <-> Z.abs d < 60000.
Proof.
  change 1000 with (Z.abs 1000) at 1.
  rewrite <- Z.quot_abs by lia.
  change (Z.abs 1000) with 1000.
  rewrite Z.quot_div_nonneg by lia.
  split; intros H.
  - apply Z.nle_gt. intros Hge. apply Z.nle_gt in H. apply H.
    apply Z.div_le_lower_bound; lia.
  - apply Z.div_lt_upper_bound; lia.
Qed.

Lemma lt_60_spec (q : Z) :
  num_lt (Math_abs (ofZ q)) (ofZ 60) = true <-> Z.abs q < 60.
Proof.
  unfold ofZ, Math_abs, num_lt, inject_Z. simpl Qabs.
  rewrite negb_true_iff, Qle_bool_false. unfold Qlt. simpl. lia.
Qed.

Lemma is_brother_spec (cur h : JobRecord) :
  is_brother host cur h = true
  <-> is_networkx h = true /\ within_60s host (imported_on h) (imported_on cur).
Proof.
  unfold is_brother, diff_second, within_60s, is_networkx.
  rewrite andb_true_iff.
  split; intros [Hw Hd]; split; trivial.
  - destruct (dayjs_valueOf host (imported_on h)) as [x|]; [|discriminate].
    destruct (dayjs_valueOf host (imported_on cur)) as [y|]; [|discriminate].
    exists x, y. repeat split. now apply abs_quot_seconds, lt_60_spec.
  - destruct Hd as (x & y & -> & -> & Hlt).
    now apply lt_60_spec, abs_quot_seconds.
Qed.

(** What [find] gives, in the vocabulary of stdpp's lists. *)
Lemma find_Some_elem {A} (p : A -> bool) (l : list A) (x : A) :
  find p l = Some x -> x ∈ l /\ p x = true.
Proof.
  intros H. apply find_some in H as [Hin Hp].
  split; [now apply list_elem_of_In | exact Hp].
Qed.

Lemma find_None_elem {A} (p : A -> bool) (l : list A) :
  find p l = None <-> forall x, x ∈ l -> p x = false.
Proof.
  split.
  - intros H x Hx. apply (find_none p l H), list_elem_of_In, Hx.
  - induction l as [|a l IH]; intros H; simpl; [reflexivity|].
    rewrite (H a) by apply list_elem_of_here.
    apply IH. intros x Hx. apply H. now apply list_elem_of_further.
Qed.


Lemma find_first {A} (p : A -> bool) (l : list A) (x : A) :
  find p l = Some x ->
  exists i : nat, l !! i = Some x /\ p x = true
    /\ forall j y, (j < i)%nat -> l !! j = Some y -> p y = false.
Proof.
  induction l as [|a l IH]; simpl; [discriminate|].
  destruct (p a) eqn:Ha; intros H.
  - injection H as <-. exists 0%nat. repeat split; trivial. intros; lia.
  - destruct (IH H) as (i & Hi & Hp & Hlt).
    exists (S i). repeat split; trivial.
    intros [|j] y Hj Hy; simpl in Hy.
    + now injection Hy as <-.
    + apply (Hlt j); [lia | exact Hy].
Qed.

(** C6.  When the requested id is found and the entry found is a mork entry:
    if some networkx entry of the history was imported less than 60 seconds
    away from it, the selector activates the id of such a sibling (the first
    one in the list); if every networkx entry is 60 seconds or more away,
    it activates the id of the mork entry itself. *)
Theorem C6_sibling_pairing (urlJobId : option string) (r : HistoryResponse)
  (hs : list JobRecord) (currentJob : JobRecord) :
  history r = Some hs ->
  truthy_id (or_id urlJobId (selected_job_id r)) = true ->
  find (fun h => bool_decide (Some (job_id h) = or_id urlJobId (selected_job_id r))) hs
    = Some currentJob ->
  writer_type currentJob = "mork" ->
  ((exists h, h ∈ hs /\ is_networkx h = true
              /\ within_60s host (imported_on h) (imported_on currentJob)) ->
   exists brother, brother ∈ hs /\ is_networkx brother = true
     /\ within_60s host (imported_on brother) (imported_on currentJob)
     /\ find (is_brother host currentJob) hs = Some brother
     /\ selected_job host urlJobId r = Some (job_id brother))
  /\ ((forall h, h ∈ hs -> is_networkx h = true ->
         ~ within_60s host (imported_on h) (imported_on currentJob)) ->
      selected_job host urlJobId r = Some (job_id currentJob)).
Proof.
  intros Hhs Ht Hfind Hmork.
  assert (Hlen : (0 <? length hs)%nat = true).
  { destruct hs; [discriminate | reflexivity]. }
  assert (Hsel : selected_job host urlJobId r
                 = job_id <$> match find (is_brother host currentJob) hs with
                              | Some b => Some b
                              | None => Some currentJob
                              end).
  { unfold selected_job, bestMatch. rewrite Hhs, Hlen, Ht, Hfind, Hmork.
    simpl. now destruct (find (is_brother host currentJob) hs). }
  split.
  - intros (h & Hin & Hnx & Hw).
    destruct (find (is_brother host currentJob) hs) as [b|] eqn:Hb.
    + exists b. destruct (find_Some_elem _ _ _ Hb) as [Hbin Hbp].
      apply is_brother_spec in Hbp as [Hbnx Hbw].
      repeat split; trivial.
    + exfalso. pose proof (proj1 (find_None_elem _ _) Hb h Hin) as Hf.
      assert (is_brother host currentJob h = true) as Hyes
        by now apply is_brother_spec.
      congruence.
  - intros Hfar. rewrite Hsel.
    destruct (find (is_brother host currentJob) hs) as [b|] eqn:Hb; [|reflexivity].
    exfalso. destruct (find_Some_elem _ _ _ Hb) as [Hbin Hbp].
    apply is_brother_spec in Hbp as [Hbnx Hbw].
    exact (Hfar b Hbin Hbnx Hbw).
Qed.





End JobSelector.

Lemma C6_sibling_pairing_witness :
  (exists brother, brother ∈ history_45s /\ is_networkx brother = true
     /\ within_60s example_host (imported_on brother) "2024-01-01T00:00:00Z"
     /\ find (is_brother example_host (job "m" "mork" "2024-01-01T00:00:00Z"))
             history_45s = Some brother
     /\ selected_job example_host (Some "m") (answer None history_45s)
        = Some (job_id brother))
  /\ selected_job example_host (Some "m") (answer None history_90s) = Some "m".
Proof.
  split.
  - apply (proj1 (C6_sibling_pairing example_host (Some "m")
                    (answer None history_45s) history_45s
                    (job "m" "mork" "2024-01-01T00:00:00Z")
                    eq_refl eq_refl eq_refl eq_refl)).
    exists (job "n" "networkx" "2024-01-01T00:00:45Z").
    split; [apply list_elem_of_further, list_elem_of_here|].
    split; [reflexivity|].
    exists 1704067245000, 1704067200000.
    split; [reflexivity | split; [reflexivity | lia]].
  - apply (proj2 (C6_sibling_pairing example_host (Some "m")
                    (answer None history_90s) history_90s
                    (job "m" "mork" "2024-01-01T00:00:00Z")
                    eq_refl eq_refl eq_refl eq_refl)).
    intros h Hin Hnx (x & y & Hx & Hy & Hlt).
    apply elem_of_cons in Hin as [-> | Hin]; [discriminate|].
    apply elem_of_cons in Hin as [-> | Hin]; [|now apply not_elem_of_nil in Hin].
    injection Hx as <-. injection Hy as <-. lia.
Defined.

(** The two cases of the specification, evaluated. *)
Example selector_sibling_45s :
  selected_job example_host (Some "m") (answer None history_45s) = Some "n".
Proof. reflexivity. Qed.

Example selector_sibling_90s :
  selected_job example_host (Some "m") (answer None history_90s) = Some "m".
Proof. reflexivity. Qed.



(** * More of the component *)

(** ** The active graph and the rows of the settings page *)

Lemma activeGraph_spec (hs : list JobRecord) (j : string) (g : JobRecord) :
  activeGraph hs j = Some g ->
  g ∈ hs /\ job_id g = j
  /\ (forall h, h ∈ hs -> job_id h = j -> is_networkx h = true ->
        is_networkx g = true).
Proof.
  unfold activeGraph.
  destruct (find (fun h => String.eqb (job_id h) j
                           && String.eqb (writer_type h) "networkx") hs)
    as [g'|] eqn:Hnx.
  - intros [= <-]. apply find_some in Hnx as [Hin Hp].
    apply andb_true_iff in Hp as [Hid Hw]. apply String.eqb_eq in Hid.
    repeat split; trivial. now apply list_elem_of_In.
  - intros Hany. pose proof Hany as Hfound.
    apply find_some in Hany as [Hin Hid]. apply String.eqb_eq in Hid.
    repeat split; trivial; [now apply list_elem_of_In|].
    intros h Hh Hj Hw. exfalso.
    pose proof (find_none _ _ Hnx h (proj1 (list_elem_of_In _ _) Hh)) as Hno.
    simpl in Hno. unfold is_networkx in Hw.
    rewrite Hw, (proj2 (String.eqb_eq _ _) Hj) in Hno. discriminate.
Qed.

Lemma activeGraph_found (hs : list JobRecord) (j : string) (h : JobRecord) :
  h ∈ hs -> job_id h = j -> is_Some (activeGraph hs j).
Proof.
  intros Hin Hj. unfold activeGraph.
  destruct (find (fun h => String.eqb (job_id h) j && _) hs); [eauto|].
  destruct (find (fun h => String.eqb (job_id h) j) hs) as [g|] eqn:Hany; [eauto|].
  pose proof (find_none _ _ Hany h (proj1 (list_elem_of_In _ _) Hin)) as Hno.
  simpl in Hno. rewrite (proj2 (String.eqb_eq _ _) Hj) in Hno. discriminate.
Qed.

Section Selection.

Variable host : Host.

(** Whatever [bestMatch] returns is an entry of the history, and it returns
    one as soon as the history has an entry. *)
Lemma bestMatch_elem (target : option string) (hs : list JobRecord) (b : JobRecord) :
  bestMatch host target hs = Some b -> b ∈ hs.
Proof.
  unfold bestMatch.
  destruct (truthy_id target).
  - destruct (find (fun h => bool_decide (Some (job_id h) = target)) hs)
      as [cur|] eqn:Hcur.
    + apply find_some in Hcur as [Hcin _]. apply list_elem_of_In in Hcin.
      destruct (String.eqb (writer_type cur) "mork").
      * destruct (find (is_brother host cur) hs) as [br|] eqn:Hbr.
        -- intros [= <-]. apply find_some in Hbr as [Hin _].
           now apply list_elem_of_In.
        -- now intros [= <-].
      * now intros [= <-].
    + destruct (find (fun h => String.eqb (writer_type h) "networkx") hs)
        as [nx|] eqn:Hnx.
      * intros [= <-]. apply find_some in Hnx as [Hin _]. now apply list_elem_of_In.
      * destruct hs; simpl; [discriminate|]. intros [= <-]. apply list_elem_of_here.
  - destruct (find (fun h => String.eqb (writer_type h) "networkx") hs)
      as [nx|] eqn:Hnx.
    + intros [= <-]. apply find_some in Hnx as [Hin _]. now apply list_elem_of_In.
    + destruct hs; simpl; [discriminate|]. intros [= <-]. apply list_elem_of_here.
Qed.

Lemma bestMatch_total (target : option string) (hs : list JobRecord) :
  hs <> [] -> is_Some (bestMatch host target hs).
Proof.
  intros Hne. unfold bestMatch.
  assert (Hfb : is_Some (match find (fun h => String.eqb (writer_type h) "networkx") hs with
                         | Some b => Some b
                         | None => head hs
                         end)).
  { destruct (find _ hs); [eauto|]. destruct hs; [contradiction | simpl; eauto]. }
  destruct (truthy_id target); [|exact Hfb].
  destruct (find (fun h => bool_decide _) hs) as [cur|]; [|exact Hfb].
  destruct (String.eqb (writer_type cur) "mork"); [|eauto].
  destruct (find (is_brother host cur) hs); eauto.
Qed.

(** X1.  A history that is not empty always activates a job, and the job
    activated is one of its entries: [initData] never makes up an id and
    never leaves the selection to an id the history does not have. *)
Theorem selected_job_in_history (urlJobId : option string) (r : HistoryResponse)
  (hs : list JobRecord) :
  history r = Some hs -> hs <> [] ->
  exists b, b ∈ hs /\ selected_job host urlJobId r = Some (job_id b).
Proof.
  intros Hhs Hne. unfold selected_job. rewrite Hhs.
  assert ((0 <? length hs)%nat = true) as -> by (destruct hs; [contradiction | reflexivity]).
  destruct (bestMatch_total (or_id urlJobId (selected_job_id r)) hs Hne) as [b Hb].
  exists b. rewrite Hb. split; [now apply (bestMatch_elem _ _ _ Hb) | reflexivity].
Qed.

(** X2.  A requested id whose entry is not a mork entry is activated as it
    is: no sibling is looked for and no fallback applies. *)
Theorem selected_job_direct (urlJobId : option string) (r : HistoryResponse)
  (hs : list JobRecord) (currentJob : JobRecord) :
  history r = Some hs ->
  truthy_id (or_id urlJobId (selected_job_id r)) = true ->
  find (fun h => bool_decide (Some (job_id h) = or_id urlJobId (selected_job_id r))) hs
    = Some currentJob ->
  writer_type currentJob <> "mork" ->
  selected_job host urlJobId r = or_id urlJobId (selected_job_id r).
Proof.
  intros Hhs Ht Hfind Hw. pose proof Hfind as Hf.
  apply find_some in Hf as [_ Hid]. apply bool_decide_eq_true in Hid.
  unfold selected_job, bestMatch. rewrite Hhs, Ht, Hfind.
  apply String.eqb_neq in Hw. rewrite Hw.
  assert ((0 <? length hs)%nat = true) as ->.
  { destruct hs; [discriminate | reflexivity]. }
  simpl. exact Hid.
Qed.

(** X3.  After [initData] has activated a job of the history, the card finds
    its active graph: an entry of that id, and a networkx one whenever the
    history has a networkx entry of that id. *)
Theorem activeGraph_after_selection (urlJobId : option string)
  (r : HistoryResponse) (hs : list JobRecord) (j : string) :
  history r = Some hs ->
  selected_job host urlJobId r = Some j ->
  exists g, activeGraph hs j = Some g /\ g ∈ hs /\ job_id g = j
    /\ (forall h, h ∈ hs -> job_id h = j -> is_networkx h = true ->
          is_networkx g = true).
Proof.
  intros Hhs Hsel. unfold selected_job in Hsel. rewrite Hhs in Hsel.
  destruct (0 <? length hs)%nat; [|discriminate].
  destruct (bestMatch host _ hs) as [b|] eqn:Hb; [|discriminate].
  injection Hsel as <-.
  destruct (activeGraph_found hs (job_id b) b (bestMatch_elem _ _ _ Hb) eq_refl)
    as [g Hg].
  exists g. split; [exact Hg|]. now apply activeGraph_spec.
Qed.

End Selection.

(** X4.  The entry the mining page shows as active graph for a job id is
    marked as selected on the settings page when that id is the current
    one; so whenever some row carries the current id, a row is marked. *)
Theorem activeGraph_isSelected (hs : list JobRecord) (j : string) :
  (forall g, activeGraph hs j = Some g -> isSelected hs j g = true)
  /\ ((exists row, row ∈ hs /\ job_id row = j) ->
      exists row, row ∈ hs /\ isSelected hs j row = true).
Proof.
  assert (Hmark : forall g, activeGraph hs j = Some g -> isSelected hs j g = true).
  { intros g Hg. destruct (activeGraph_spec hs j g Hg) as (Hin & Hid & Hnx).
    unfold isSelected, isDirectlySelected. rewrite (proj2 (String.eqb_eq _ _) Hid).
    simpl. destruct (hasNetworkXBrother hs g) eqn:Hb; [|reflexivity].
    unfold hasNetworkXBrother in Hb. apply existsb_exists in Hb as (h & Hh & Hp).
    apply andb_true_iff in Hp as [Hsame Hw]. rewrite orb_diag in Hsame.
    apply String.eqb_eq in Hsame. apply (Hnx h).
    - now apply list_elem_of_In.
    - congruence.
    - exact Hw. }
  split; [exact Hmark|].
  intros (row & Hin & Hid).
  destruct (activeGraph_found hs j row Hin Hid) as [g Hg].
  exists g. split; [now apply (activeGraph_spec hs j g Hg) | now apply Hmark].
Qed.

(** X5.  A row is marked only if it carries the current id, and a row that
    is not a networkx row is marked only if no networkx entry of the history
    shares its id: of a pair of siblings under one id, the networkx one
    alone is marked. *)
Theorem isSelected_rule (hs : list JobRecord) (j : string) (row : JobRecord) :
  isSelected hs j row = true ->
  job_id row = j
  /\ (isNetworkX row = false ->
      forall h, h ∈ hs -> job_id h = job_id row -> isNetworkX h = false).
Proof.
  unfold isSelected, isDirectlySelected. intros H.
  apply andb_true_iff in H as [Hid Hrule]. apply String.eqb_eq in Hid.
  split; [exact Hid|]. intros Hrow h Hin Hsame.
  destruct (hasNetworkXBrother hs row) eqn:Hb; [congruence|].
  destruct (isNetworkX h) eqn:Hh; [|reflexivity]. exfalso.
  assert (hasNetworkXBrother hs row = true); [|congruence].
  unfold hasNetworkXBrother. apply existsb_exists. exists h.
  split; [now apply list_elem_of_In|].
  rewrite (proj2 (String.eqb_eq _ _) Hsame). exact Hh.
Qed.

(** ** The colours of the settings page *)

Lemma colorMapping_map_NoDup : NoDup colorMapping_map.
Proof. apply (bool_decide_unpack _). vm_compute. reflexivity. Qed.

(** [map[i % map.length]] is always there. *)
Lemma colorMapping_map_lookup (i : nat) :
  exists c, colorMapping_map !! (i mod length colorMapping_map)%nat = Some c.
Proof.
  apply lookup_lt_is_Some. apply Nat.mod_upper_bound. discriminate.
Qed.

(** The [Set]: adding the ids one by one to the distinct ids [set] had so
    far leaves distinct ids, the ones of [set] first, and adds exactly the
    new ones. *)
Lemma Set_add_all (ids set : list string) :
  NoDup set ->
  let set' := foldl (fun set x => if bool_decide (x ∈ set) then set else set ++ [x])
                    set ids in
  NoDup set'
  /\ (forall x, x ∈ set' <-> x ∈ set \/ x ∈ ids)
  /\ (forall i x, set !! i = Some x -> set' !! i = Some x)
  /\ (set = [] -> head set' = head ids).
Proof.
  revert set. induction ids as [|y ids IH]; intros set Hnd; simpl.
  - repeat split; trivial.
    + now left.
    + intros [H | H]; [exact H | now apply not_elem_of_nil in H].
    + now intros ->.
  - destruct (bool_decide (y ∈ set)) eqn:Hy.
    + apply bool_decide_eq_true in Hy.
      destruct (IH set Hnd) as (Hn & Hel & Hpre & _).
      repeat split; trivial.
      * intros H. apply Hel in H as [H | H]; [now left | right; now apply list_elem_of_further].
      * intros [H | H]; apply Hel; [now left|].
        apply elem_of_cons in H as [-> | H]; [now left | now right].
      * intros ->. now apply not_elem_of_nil in Hy.
    + apply bool_decide_eq_false in Hy.
      assert (Hnd' : NoDup (set ++ [y])).
      { apply NoDup_app. repeat split; trivial.
        - intros x Hx Hx'. apply list_elem_of_singleton in Hx'. now subst.
        - apply NoDup_singleton. }
      destruct (IH (set ++ [y]) Hnd') as (Hn & Hel & Hpre & _).
      repeat split; trivial.
      * intros H. apply Hel in H as [H | H].
        -- apply elem_of_app in H as [H | H]; [now left|].
           apply list_elem_of_singleton in H as ->. right. apply list_elem_of_here.
        -- right. now apply list_elem_of_further.
      * intros [H | H]; apply Hel.
        -- left. apply elem_of_app. now left.
        -- apply elem_of_cons in H as [-> | H]; [|now right].
           left. apply elem_of_app. right. now apply list_elem_of_singleton.
      * intros i x Hi. apply Hpre. now apply lookup_app_l_Some.
      * intros ->. simpl.
        assert (Hh : ([] ++ [y]) !! 0%nat = Some y) by reflexivity.
        apply Hpre in Hh. now destruct (foldl _ _ ids).
Qed.

Lemma uniqueNodeTypes_spec (ids : list string) :
  NoDup (uniqueNodeTypes ids)
  /\ (forall x, x ∈ uniqueNodeTypes ids <-> x ∈ ids)
  /\ head (uniqueNodeTypes ids) = head ids.
Proof.
  destruct (Set_add_all ids [] (NoDup_nil_2)) as (Hn & Hel & _ & Hh).
  repeat split; trivial.
  - intros H. apply Hel in H as [H | H]; [now apply not_elem_of_nil in H | exact H].
  - intros H. apply Hel. now right.
  - now apply Hh.
Qed.

(** The reduction over distinct types: the type at place [k] gets the
    colour of index [i + k], and the other keys keep what they had. *)
Lemma reduce_colors_spec (types : list string) :
  NoDup types ->
  forall (i : nat) (a : gmap string string),
    (forall k c, types !! k = Some c ->
       reduce_colors i a types !! c
       = colorMapping_map !! ((i + k) mod length colorMapping_map)%nat)
    /\ (forall c, c ∉ types -> reduce_colors i a types !! c = a !! c).
Proof.
  induction 1 as [|t types Hnotin Hnd IH]; intros i a; cbn [reduce_colors].
  - split; [intros k c Hk; discriminate | reflexivity].
  - destruct (IH (S i) (<[t := default "" (colorMapping_map !! (i mod length colorMapping_map)%nat)]> a))
      as [Hin Hout].
    split.
    + intros [|k] c Hk; simpl in Hk.
      * injection Hk as <-. rewrite (Hout t Hnotin), lookup_insert_eq.
        destruct (colorMapping_map_lookup i) as [col Hcol].
        rewrite Nat.add_0_r. unfold colorMapping_map in *. rewrite Hcol. reflexivity.
      * rewrite (Hin k c Hk). f_equal. f_equal. lia.
    + intros c Hc. apply not_elem_of_cons in Hc as [Hne Hc].
      rewrite (Hout c Hc). now apply lookup_insert_ne.
Qed.

(** The colour of the type of rank [i] among the distinct types. *)
Lemma colorMapping_rank (ids : list string) (i : nat) (t : string) :
  uniqueNodeTypes ids !! i = Some t ->
  reduce_colors 0 ∅ (uniqueNodeTypes ids) !! t
  = colorMapping_map !! (i mod 15)%nat.
Proof.
  intros Hi.
  destruct (uniqueNodeTypes_spec ids) as (Hnd & _ & _).
  pose proof (reduce_colors_spec _ Hnd 0%nat ∅) as [Hin _].
  exact (Hin i t Hi).
Qed.

(** X6.  [colorMapping] gives a colour to the type of every node and to
    nothing else; the colour of a type is the entry of [map] at the rank of
    the type among the distinct types, counted modulo 15, and the type of
    the first node gets the first colour. *)
Theorem colorMapping_ranks (ids : list string) (m : gmap string string) :
  colorMapping (Some ids) = Some m ->
  (forall t, t ∈ ids <-> is_Some (m !! t))
  /\ (forall i t, uniqueNodeTypes ids !! i = Some t ->
        m !! t = colorMapping_map !! (i mod 15)%nat)
  /\ (forall t, head ids = Some t -> m !! t = Some "#EF4444").
Proof.
  intros [= <-].
  destruct (uniqueNodeTypes_spec ids) as (Hnd & Hel & Hhead).
  pose proof (reduce_colors_spec _ Hnd 0%nat ∅) as [Hin Hout].
  pose proof (colorMapping_rank ids) as Hrank.
  split; [|split].
  - intros t. split.
    + intros Ht. apply Hel, list_elem_of_lookup in Ht as [i Hi].
      rewrite (Hrank i t Hi). apply colorMapping_map_lookup.
    + intros [c Hc]. apply Hel.
      destruct (decide (t ∈ uniqueNodeTypes ids)) as [Hyes | Hno]; [exact Hyes|].
      rewrite (Hout t Hno) in Hc. discriminate.
  - exact Hrank.
  - intros t Ht. rewrite <- Hhead in Ht.
    assert (H0 : uniqueNodeTypes ids !! 0%nat = Some t).
    { destruct (uniqueNodeTypes ids); [discriminate | exact Ht]. }
    now rewrite (Hrank _ _ H0).
Qed.

(** X7.  With at most 15 distinct node types no two types share a colour;
    beyond that, the type of rank [i + 15] has the colour of the type of
    rank [i]. *)
Theorem colorMapping_distinct (ids : list string) (m : gmap string string) :
  colorMapping (Some ids) = Some m ->
  ((length (uniqueNodeTypes ids) <= 15)%nat ->
   forall t1 t2, t1 ∈ ids -> t2 ∈ ids -> m !! t1 = m !! t2 -> t1 = t2)
  /\ (forall i t t', uniqueNodeTypes ids !! i = Some t ->
        uniqueNodeTypes ids !! (i + 15)%nat = Some t' ->
        t <> t' /\ m !! t = m !! t').
Proof.
  intros [= <-]. pose proof (colorMapping_rank ids) as Hrank.
  destruct (uniqueNodeTypes_spec ids) as (Hnd & Hel & _).
  split.
  - intros Hlen t1 t2 H1 H2 Heq.
    apply Hel, list_elem_of_lookup in H1 as [i Hi].
    apply Hel, list_elem_of_lookup in H2 as [j Hj].
    pose proof (lookup_lt_Some _ _ _ Hi) as Hil.
    pose proof (lookup_lt_Some _ _ _ Hj) as Hjl.
    rewrite (Hrank i t1 Hi), (Hrank j t2 Hj) in Heq.
    rewrite !Nat.mod_small in Heq by lia.
    destruct (lookup_lt_is_Some_2 colorMapping_map i) as [c Hc];
      [simpl; lia|].
    rewrite Hc in Heq. symmetry in Heq.
    pose proof (NoDup_lookup _ _ _ _ colorMapping_map_NoDup Hc Heq) as ->.
    congruence.
  - intros i t t' Hi Hi'. split.
    + intros <-. pose proof (NoDup_lookup _ _ _ _ Hnd Hi Hi'). lia.
    + rewrite (Hrank i t Hi), (Hrank _ t' Hi'). f_equal.
      replace (i + 15)%nat with (i + 1 * 15)%nat by lia.
      now rewrite Nat.Div0.mod_add.
Qed.

(** ** More on the selection *)

Section Stability.

Variable host : Host.

Lemma find_by_id (hs : list JobRecord) (b : JobRecord) :
  NoDup (job_id <$> hs) -> b ∈ hs ->
  find (fun h => bool_decide (Some (job_id h) = Some (job_id b))) hs = Some b.
Proof.
  induction hs as [|a hs IH]; intros Hnd Hin; [now apply not_elem_of_nil in Hin|].
  rewrite fmap_cons in Hnd. apply NoDup_cons in Hnd as [Hnotin Hnd].
  simpl. apply elem_of_cons in Hin as [-> | Hin].
  - now rewrite bool_decide_eq_true_2.
  - rewrite bool_decide_eq_false_2; [now apply IH|].
    intros [= Heq]. apply Hnotin. rewrite Heq. now apply list_elem_of_fmap_2.
Qed.

Lemma no_brother_without_networkx (cur : JobRecord) (hs : list JobRecord) :
  find (fun h => String.eqb (writer_type h) "networkx") hs = None ->
  find (is_brother host cur) hs = None.
Proof.
  intros Hnone. apply find_None_elem. intros h Hh.
  pose proof (proj1 (find_None_elem _ _) Hnone h Hh) as Hw. simpl in Hw.
  unfold is_brother. now rewrite Hw.
Qed.

(** X8.  When the entries of the history have distinct ids, the selection is
    stable: asking for the id that [initData] activated activates it
    again, whatever the loader reports as its own selection. *)
Theorem selected_job_stable (urlJobId sel' : option string) (r : HistoryResponse)
  (hs : list JobRecord) (j : string) :
  history r = Some hs ->
  NoDup (job_id <$> hs) ->
  selected_job host urlJobId r = Some j ->
  j <> "" ->
  selected_job host (Some j) {| selected_job_id := sel'; history := Some hs |}
  = Some j.
Proof.
  intros Hhs Hnd Hsel Hj.
  unfold selected_job in Hsel. rewrite Hhs in Hsel.
  destruct (0 <? length hs)%nat eqn:Hlen; [|discriminate].
  destruct (bestMatch host (or_id urlJobId (selected_job_id r)) hs) as [b|] eqn:Hb;
    [|discriminate].
  injection Hsel as <-.
  pose proof (bestMatch_elem host _ _ _ Hb) as Hin.
  assert (Htruthy : truthy (JStr (job_id b)) = true).
  { simpl. apply negb_true_iff. now apply String.eqb_neq. }
  unfold selected_job. cbn [history selected_job_id]. rewrite Hlen.
  unfold or_id. rewrite Htruthy.
  unfold bestMatch at 1. unfold truthy_id. rewrite Htruthy.
  rewrite (find_by_id hs b Hnd Hin).
  destruct (String.eqb (writer_type b) "mork") eqn:Hmork; [|reflexivity].
  assert (Hnone : find (is_brother host b) hs = None); [|now rewrite Hnone].
  apply String.eqb_eq in Hmork.
  unfold bestMatch in Hb.
  assert (Hfallback :
            match find (fun h => String.eqb (writer_type h) "networkx") hs with
            | Some b0 => Some b0
            | None => head hs
            end = Some b ->
            find (is_brother host b) hs = None).
  { destruct (find (fun h => String.eqb (writer_type h) "networkx") hs)
      as [nx|] eqn:Hnx.
    - intros [= ->]. apply find_some in Hnx as [_ Hw].
      apply String.eqb_eq in Hw. congruence.
    - intros _. now apply no_brother_without_networkx. }
  destruct (truthy_id (or_id urlJobId (selected_job_id r))); [|now apply Hfallback].
  destruct (find (fun h => bool_decide _) hs) as [cur|]; [|now apply Hfallback].
  destruct (String.eqb (writer_type cur) "mork") eqn:Hcur.
  - destruct (find (is_brother host cur) hs) as [br|] eqn:Hbr.
    + injection Hb as ->. apply find_some in Hbr as [_ Hp].
      unfold is_brother in Hp. apply andb_true_iff in Hp as [Hw _].
      apply String.eqb_eq in Hw. congruence.
    + injection Hb as ->. exact Hbr.
  - injection Hb as ->. apply String.eqb_neq in Hcur. contradiction.
Qed.

End Stability.

(** ** More on the progress card *)

(** X17.  On the card, the test [current === 0 && total === 1] of line 502
    never decides: the phase line is shown exactly when the stored total is
    above 1 and, for "search_trials", the message does not mention
    sampling. *)
Theorem phase_line_shown_simpler (pd : PhaseDetail) (status : jsval) :
  phase_line_shown pd status
  = num_gt (total pd) one
    && (negb (String.eqb (phase pd) "search_trials")
        || negb (mentions_sampling status)).
Proof.
  unfold phase_line_shown.
  destruct (num_gt (total pd) one) eqn:Hgt; [|reflexivity].
  assert (Hne : num_eq (total pd) one = false).
  { destruct (total pd) as [| |q|]; try reflexivity.
    unfold num_gt, one in Hgt. simpl in *.
    apply negb_true_iff, Qle_bool_false in Hgt.
    apply not_true_iff_false. intros Heq. apply Qeq_bool_iff in Heq.
    rewrite Heq in Hgt. now apply Qlt_irrefl in Hgt. }
  rewrite Hne, andb_false_r. reflexivity.
Qed.

(** ** More on the tick callback *)

Lemma num_le_trans (a b c : num) :
  num_le a b = true -> num_le b c = true -> num_le a c = true.
Proof. intros H1 H2. num_cases. Qed.

Section MoreTicks.

Variable host : Host.

Lemma ticks_app (job : string) (ds1 ds2 : list jsval) (s : State) :
  ticks host job (ds1 ++ ds2) s = ticks host job ds2 (ticks host job ds1 s).
Proof. unfold ticks. apply foldl_app. Qed.

Lemma ticks_progress (job : string) (ds : list jsval) (s : State) :
  in_range (miningProgress (hooks s)) ->
  Forall (reads_number host) ds ->
  in_range (miningProgress (hooks (ticks host job ds s)))
  /\ num_le (miningProgress (hooks s))
            (miningProgress (hooks (ticks host job ds s))) = true.
Proof.
  revert s. induction ds as [|d ds IH]; intros s Hr Hall; simpl.
  - split; [exact Hr|]. destruct Hr as [H0 H100].
    destruct (miningProgress (hooks s)); try discriminate; try reflexivity.
    now apply Qle_bool_iff, Qle_refl.
  - apply Forall_cons in Hall as [Hd Hall].
    destruct (numeric_progress_monotone host job d s Hr Hd) as [Hr1 Hle1].
    destruct (IH _ Hr1 Hall) as [Hr2 Hle2].
    split; [exact Hr2|]. exact (num_le_trans _ _ _ Hle1 Hle2).
Qed.

(** X9.  Over any sequence of status bodies whose progress reads as a
    number, handled one after the other, the displayed progress stays in
    [0,100] and never goes down: what is on display after a longer part of
    the sequence is at or above what was on display after a shorter one. *)
Theorem progress_never_regresses (job : string) (ds1 ds2 : list jsval)
  (s : State) :
  in_range (miningProgress (hooks s)) ->
  Forall (reads_number host) (ds1 ++ ds2) ->
  in_range (miningProgress (hooks (ticks host job ds1 s)))
  /\ in_range (miningProgress (hooks (ticks host job (ds1 ++ ds2) s)))
  /\ num_le (miningProgress (hooks (ticks host job ds1 s)))
            (miningProgress (hooks (ticks host job (ds1 ++ ds2) s))) = true.
Proof.
  intros Hr Hall. apply Forall_app in Hall as [H1 H2].
  destruct (ticks_progress job ds1 s Hr H1) as [Hr1 _].
  rewrite ticks_app.
  destruct (ticks_progress job ds2 _ Hr1 H2) as [Hr2 Hle].
  split; [exact Hr1 | split; [exact Hr2 | exact Hle]].
Qed.

Lemma classify_phase_cases (p : num) (ph : jsval) (s : State) :
  phaseDetail (hooks (classify_phase host p ph s)) = None
  \/ phaseDetail (hooks (classify_phase host p ph s)) = phaseDetail (hooks s)
  \/ exists name c,
       phaseDetail (hooks (classify_phase host p ph s))
       = phase_update name c (phaseDetail (hooks s)).
Proof.
  unfold classify_phase. break_ifs; simpl; eauto.
Qed.

Lemma phase_update_current (name : string) (c : jsval) (p p' : PhaseDetail) :
  phase_update name c (Some p) = Some p' -> phase p' = phase p ->
  num_lt (current p') (current p) = false.
Proof.
  unfold phase_update.
  destruct (String.eqb (phase p) name) eqn:Hname; simpl.
  - destruct (num_gt (current p) (the_number (get c "current"))) eqn:Hgt.
    + intros [= <-] _. apply num_lt_irrefl.
    + intros [= <-] _. exact Hgt.
  - intros [= <-]. simpl. intros Heq. apply String.eqb_neq in Hname. congruence.
Qed.

(** X10.  Within one phase the counter on display never goes back: when a
    tick leaves a phase detail of the same phase as the one it found, its
    [current] is not below the one that was there. *)
Theorem phase_counter_never_goes_back (job : string) (data : jsval) (s : State)
  (p p' : PhaseDetail) :
  phaseDetail (hooks s) = Some p ->
  phaseDetail (hooks (pollTick_data host job data s)) = Some p' ->
  phase p' = phase p ->
  num_lt (current p') (current p) = false.
Proof.
  intros Hp. rewrite pollTick_data_phase.
  destruct (_ && is_object (get data "phases")).
  - destruct (classify_phase_cases (clamped_progress host data) (get data "phases") s)
      as [-> | [-> | (name & c & ->)]].
    + discriminate.
    + rewrite Hp. intros [= <-] _. apply num_lt_irrefl.
    + rewrite Hp. apply phase_update_current.
  - rewrite Hp. intros [= <-] _. apply num_lt_irrefl.
Qed.

(** X15.  A start response that carries neither a download link nor a
    pattern count yields the very MiningResult a finalizing poll tick of
    the same job yields: the link constructed from the job id, and no
    count. *)
Theorem start_response_without_fields (c : StartClosure) (resp url : jsval)
  (s : State) (data : jsval) (s0 : State) :
  prop resp "download_url" = Some url ->
  truthy url = false ->
  get resp "patterns_count" = JUndefined ->
  finalizes host data s0 = true ->
  miningResult (hooks (startMining_resolved host c resp s))
  = miningResult (hooks (pollTick_data host (c_jobId c) data s0)).
Proof.
  intros Hurl Hfalsy Hcount Hf.
  destruct (pollTick_data_final host (c_jobId c) data s0 Hf) as (_ & -> & _).
  unfold startMining_resolved. rewrite Hurl. cbv zeta.
  match goal with
  | |- context [startMining_finally c ?x] =>
      destruct (finally_result c x) as (-> & _)
  end.
  unfold js_or. rewrite Hfalsy, Hcount. now destruct (negb _).
Qed.

End MoreTicks.

(** ** More on runs *)

Section MoreRuns.

Variable host : Host.

(** What the handlers write to the network log. *)
Lemma pollTick_requests (job : string) (o : Outcome) (s : State) :
  requests (world (pollTick host job o s)) = requests (world s).
Proof.
  destruct o as [e | data]; [reflexivity|]. simpl.
  destruct (finalizes host data s) eqn:Hf.
  - now destruct (pollTick_data_final host job data s Hf) as (_ & _ & _ & _ & _ & _ & _ & ->).
  - now destruct (pollTick_data_not_final host job data s Hf) as (_ & _ & _ & _ & _ & _ & ->).
Qed.

Lemma startMining_rejected_requests (c : StartClosure) (e : jsval) (s : State) :
  requests (world (startMining_rejected c e s)) = requests (world s).
Proof.
  unfold startMining_rejected, startMining_finally. break_ifs; reflexivity.
Qed.

Lemma startMining_resolved_requests (c : StartClosure) (data : jsval) (s : State) :
  requests (world (startMining_resolved host c data s)) = requests (world s).
Proof.
  unfold startMining_resolved.
  destruct (prop data "download_url"); [|apply startMining_rejected_requests].
  unfold startMining_finally. break_ifs; reflexivity.
Qed.

Lemma initData_requests (u : option string) (o : HistoryOutcome) (s : State) :
  requests (world (initData_ends host u o s)) = requests (world s).
Proof.
  unfold initData_ends. destruct o as [e | r]; [reflexivity|].
  now destruct (selected_job host u r).
Qed.

Lemma render_requests (s : State) :
  requests (world (render s)) = requests (world s).
Proof. now destruct (render_frame s) as (_ & _ & _ & _ & _ & _ & _ & -> & _). Qed.

Lemma step_requests (e : Event) (s s' : State) :
  step host e s = Some s' ->
  exists sent,
    requests (world s') = requests (world s) ++ sent
    /\ count_posts sent = count_clicks [e]
    /\ count_gets sent = count_fires [e].
Proof.
  destruct e as [v | v | | id | k o | k o | k o]; cbn [step].
  - intros [= <-]. exists []. rewrite render_requests, app_nil_r. now repeat split.
  - intros [= <-]. exists []. rewrite render_requests, app_nil_r. now repeat split.
  - destruct (isMining (hooks s)); cbn [negb andb]; [discriminate|].
    destruct (truthy (JStr (jobId (hooks s)))) eqn:Hj; [|discriminate].
    intros [= <-].
    exists [Post "/api/mine-patterns" (formData_of (jobId (hooks s)) (form (hooks s)))].
    rewrite render_requests. unfold startMining. rewrite Hj. now repeat split.
  - destruct (find _ _) as [t|]; [|discriminate]. intros [= <-].
    exists [Get ("/api/mining-status/" +:+ t_jobId t)].
    rewrite render_requests. now repeat split.
  - destruct (polls (world s) !! k) as [t|]; [|discriminate]. intros [= <-].
    exists []. rewrite render_requests, pollTick_requests, app_nil_r.
    now repeat split.
  - destruct (posts (world s) !! k) as [c|]; [|discriminate]. intros [= <-].
    exists []. rewrite render_requests, app_nil_r.
    destruct o; [rewrite startMining_rejected_requests
                | rewrite startMining_resolved_requests]; now repeat split.
  - destruct (fetches (world s) !! k) as [u|]; [|discriminate]. intros [= <-].
    exists []. rewrite render_requests, initData_requests, app_nil_r.
    now repeat split.
Qed.

Lemma count_posts_app (a b : list Request) :
  count_posts (a ++ b) = (count_posts a + count_posts b)%nat.
Proof. unfold count_posts. now rewrite List.filter_app, length_app. Qed.

Lemma count_gets_app (a b : list Request) :
  count_gets (a ++ b) = (count_gets a + count_gets b)%nat.
Proof. unfold count_gets. now rewrite List.filter_app, length_app. Qed.

(** X13.  Only a click sends a start request and only the firing of an
    interval sends a status request: over any run of events, the start
    requests sent are as many as the clicks and the status requests as many
    as the firings.  No answer, failure or render ever sends or repeats a
    request. *)
Theorem requests_match_events (es : list Event) (s s' : State) :
  run host es s = Some s' ->
  count_posts (requests (world s'))
  = (count_posts (requests (world s)) + count_clicks es)%nat
  /\ count_gets (requests (world s'))
     = (count_gets (requests (world s)) + count_fires es)%nat.
Proof.
  revert s. induction es as [|e es IH]; intros s; simpl.
  - intros [= <-]. unfold count_clicks, count_fires. simpl. lia.
  - destruct (step host e s) as [s1|] eqn:E; [|discriminate].
    intros Hrun. destruct (IH s1 Hrun) as [Hp Hg].
    destruct (step_requests e s s1 E) as (sent & Hs & Hc & Hf).
    rewrite Hp, Hg, Hs, count_posts_app, count_gets_app, Hc, Hf.
    change (e :: es) with ([e] ++ es).
    unfold count_clicks, count_fires. rewrite !List.filter_app, !length_app. lia.
Qed.

(** X11.  While no run is under way nothing can finalize: in a reachable
    state that is not mining, the answer to a status request still in
    flight, whatever it says, leaves the result, the toasts and the network
    log as they are and starts nothing. *)
Theorem idle_tick_cannot_finalize (s s' : State) (k : nat) (o : Outcome) :
  reachable host s ->
  isMining (hooks s) = false ->
  step host (PollEnds k o) s = Some s' ->
  isMining (hooks s') = false
  /\ miningResult (hooks s') = miningResult (hooks s)
  /\ toasts (world s') = toasts (world s)
  /\ requests (world s') = requests (world s)
  /\ timers (world s') = [].
Proof.
  intros Hreach Hidle Hstep.
  pose proof (reachable_rendered host s Hreach) as Hr.
  pose proof (step_rendered host _ _ _ Hr Hstep) as Hr'.
  destruct (rendered_idle s Hr Hidle) as [He _].
  assert (Href : pollIntervalRef (refs s) = None).
  { destruct Hr as ((_ & _ & [H | H] & _) & _); [exact H | congruence]. }
  assert (Hmine : isMining (hooks s') = false
                  /\ miningResult (hooks s') = miningResult (hooks s)
                  /\ toasts (world s') = toasts (world s)
                  /\ requests (world s') = requests (world s)).
  { revert Hstep. cbn [step].
    destruct (polls (world s) !! k) as [t|]; [|discriminate].
    intros [= <-].
    match goal with
    | |- context [render ?x] =>
        destruct (render_result x) as (-> & -> & _ & ->)
    end.
    rewrite render_requests, pollTick_requests.
    destruct o as [e | data]; simpl; [now repeat split|].
    assert (Hf : finalizes host data (set_polls (delete k (polls (world s))) s) = false).
    { unfold finalizes. simpl. rewrite Href. apply andb_false_r. }
    destruct (pollTick_data_not_final host (t_jobId t) data _ Hf)
      as (-> & -> & _ & _ & _ & _ & ->).
    now repeat split. }
  destruct Hmine as (Hm & Hres & Ht & Hq). repeat split; trivial.
  now apply (rendered_idle s' Hr').
Qed.

End MoreRuns.

(** ** More invariants of reachable states *)

Section MoreInvariants.

Variable host : Host.

Lemma render_alive (s : State) :
  (eff_deps (world s) = deps_of s -> poller_alive s) -> poller_alive (render s).
Proof.
  intros H. unfold render.
  destruct (deps_eqb (deps_of s) (eff_deps (world s))) eqn:E.
  { apply H. symmetry. now apply deps_eqb_eq. }
  assert (Hh : hooks (effect_cleanup s) = hooks s)
    by (unfold effect_cleanup; now destruct (eff_intervalId (world s))).
  unfold effect_body, poller_alive. rewrite Hh.
  destruct (isMining (hooks s) && truthy (JStr (jobId (hooks s)))) eqn:Em.
  - simpl. discriminate.
  - cbn -[truthy]. rewrite Hh. intros Hm Hj. rewrite Hm, Hj in Em. discriminate.
Qed.

Lemma finally_idle (c : StartClosure) (s : State) :
  isMining (hooks (startMining_finally c s)) = false.
Proof. now destruct (finally_result c s) as (_ & _ & ->). Qed.

Lemma start_ends_idle (c : StartClosure) (o : Outcome) (s : State) :
  isMining (hooks (match o with
                   | Resolved data => startMining_resolved host c data s
                   | Rejected e => startMining_rejected c e s
                   end)) = false.
Proof.
  destruct o as [e | data].
  - unfold startMining_rejected. cbv zeta. apply finally_idle.
  - unfold startMining_resolved.
    destruct (prop data "download_url");
      [|unfold startMining_rejected]; cbv zeta; apply finally_idle.
Qed.

Lemma step_alive (e : Event) (s s' : State) :
  rendered s -> poller_alive s -> step host e s = Some s' -> poller_alive s'.
Proof.
  intros Hr Ha. pose proof Hr as (_ & Hd & _).
  destruct e as [v | v | | id | k o | k o | k o]; cbn [step].
  - intros [= <-]. apply render_alive. intros _. exact Ha.
  - intros [= <-]. apply render_alive. intros _. exact Ha.
  - destruct (isMining (hooks s)) eqn:Hm; cbn [negb andb]; [discriminate|].
    destruct (truthy (JStr (jobId (hooks s)))) eqn:Hj; [|discriminate].
    intros [= <-]. apply render_alive. unfold startMining. rewrite Hj. simpl.
    rewrite Hd. unfold deps_of. simpl. rewrite Hm. discriminate.
  - destruct (find _ _); [|discriminate].
    intros [= <-]. apply render_alive. intros _. exact Ha.
  - destruct (polls (world s) !! k) as [t|]; [|discriminate].
    intros [= <-]. apply render_alive. intros _.
    destruct o as [e | data]; [exact Ha|]. simpl.
    set (s0 := set_polls (delete k (polls (world s))) s).
    destruct (finalizes host data s0) eqn:Hf.
    + destruct (pollTick_data_final host (t_jobId t) data s0 Hf) as (Hm & _).
      intros Hm'. rewrite Hm in Hm'. discriminate.
    + destruct (pollTick_data_not_final host (t_jobId t) data s0 Hf)
        as (Hm & _ & Hj & _ & _ & _ & Hw).
      unfold poller_alive. rewrite Hm, Hj, Hw. exact Ha.
  - destruct (posts (world s) !! k) as [c|]; [|discriminate].
    intros [= <-]. apply render_alive. intros _ Hm.
    rewrite start_ends_idle in Hm. discriminate.
  - destruct (fetches (world s) !! k) as [u|]; [|discriminate].
    intros [= <-]. apply render_alive.
    destruct o as [e | r]; simpl; [intros _; exact Ha|].
    destruct (selected_job host u r) as [j|]; [|intros _; exact Ha].
    simpl. rewrite Hd. unfold deps_of. simpl. intros [= Hj].
    unfold poller_alive. simpl. rewrite <- Hj. exact Ha.
Qed.

Lemma reachable_alive (s : State) : reachable host s -> poller_alive s.
Proof.
  intros (u & es & Hrun).
  assert (Hgen : forall es s0 s1, rendered s0 -> poller_alive s0 ->
            run host es s0 = Some s1 -> poller_alive s1).
  { clear. intros es. induction es as [|e es IH]; simpl; intros s0 s1 Hr Ha.
    - now intros [= <-].
    - destruct (step host e s0) as [s2|] eqn:E; [|discriminate].
      apply IH; [now apply (step_rendered host e s0) | now apply (step_alive e s0)]. }
  apply (Hgen es (init u) s (init_rendered u)); [|exact Hrun].
  intros Hm. discriminate.
Qed.

(** X12.  In every reachable state there is at most one poller: none while
    no run is under way, and exactly one, for the job now selected, while
    mining with a job selected.  Every status request it sends asks for that
    job. *)
Theorem single_poller (s : State) :
  reachable host s ->
  (isMining (hooks s) = false -> timers (world s) = [])
  /\ (isMining (hooks s) = true -> jobId (hooks s) <> "" ->
      exists id, timers (world s)
                 = [ {| t_timer := id; t_jobId := jobId (hooks s) |} ])
  /\ (length (timers (world s)) <= 1)%nat
  /\ (forall id s', step host (TimerFires id) s = Some s' ->
        requests (world s')
        = requests (world s) ++ [Get ("/api/mining-status/" +:+ jobId (hooks s))]).
Proof.
  intros Hreach. pose proof (reachable_rendered host s Hreach) as Hr.
  pose proof (reachable_alive s Hreach) as Ha.
  pose proof Hr as (_ & Hd & Hlive & Hmine).
  assert (Hjob : snd (eff_deps (world s)) = jobId (hooks s)) by now rewrite Hd.
  split; [|split; [|split]].
  - intros Hidle. now apply (rendered_idle s Hr).
  - intros Hm Hj. rewrite Hlive. unfold live_timer. rewrite Hjob.
    destruct (eff_intervalId (world s)) as [id|] eqn:He; [now exists id|].
    exfalso. apply (Ha Hm); [|exact He].
    simpl. apply negb_true_iff. now apply String.eqb_neq.
  - rewrite Hlive. unfold live_timer.
    destruct (eff_intervalId (world s)); simpl; lia.
  - intros id s'. cbn [step].
    destruct (find _ _) as [t|] eqn:Hfind; [|discriminate].
    apply find_some in Hfind as [Hin _].
    rewrite Hlive in Hin. unfold live_timer in Hin.
    destruct (eff_intervalId (world s)) as [id'|]; [|contradiction].
    destruct Hin as [<- | []]. intros [= <-].
    rewrite render_requests. simpl. now rewrite Hjob.
Qed.

(** X14.  When the history answer arrives during a run and activates another
    job, the polling starts over for that job: the old interval is cleared,
    a fresh one polls the new id, and progress, message and phase are reset;
    the start request of the run is neither repeated nor withdrawn. *)
Theorem job_change_restarts_polling (s s' : State) (k : nat)
  (u : option string) (r : HistoryResponse) (j : string) :
  reachable host s ->
  isMining (hooks s) = true ->
  fetches (world s) !! k = Some u ->
  selected_job host u r = Some j ->
  j <> jobId (hooks s) ->
  j <> "" ->
  step host (HistoryEnds k (HistoryResolved r)) s = Some s' ->
  jobId (hooks s') = j
  /\ isMining (hooks s') = true
  /\ timers (world s')
     = [ {| t_timer := nextTimer (world s); t_jobId := j |} ]
  /\ pollIntervalRef (refs s') = Some (nextTimer (world s))
  /\ miningProgress (hooks s') = zero
  /\ maxProgressSeenRef (refs s') = zero
  /\ miningStatus (hooks s') = JStr "Starting miner..."
  /\ phaseDetail (hooks s') = None
  /\ requests (world s') = requests (world s)
  /\ posts (world s') = posts (world s).
Proof.
  intros Hreach Hm Hk Hsel Hne Hj.
  pose proof (reachable_rendered host s Hreach) as (_ & Hd & Hlive & _).
  cbn [step]. rewrite Hk. cbv zeta. unfold initData_ends. rewrite Hsel.
  intros [= <-]. unfold render.
  assert (Hdiff : deps_eqb (deps_of (setJobId j (set_fetches (delete k (fetches (world s))) s)))
                    (eff_deps (world (setJobId j (set_fetches (delete k (fetches (world s))) s))))
                  = false).
  { apply not_true_iff_false. intros Heq. apply deps_eqb_eq in Heq.
    simpl in Heq. rewrite Hd in Heq. unfold deps_of in Heq. simpl in Heq.
    injection Heq as Heq. contradiction. }
  rewrite Hdiff.
  assert (Htruthy : truthy (JStr j) = true).
  { simpl. apply negb_true_iff. now apply String.eqb_neq. }
  unfold effect_body, effect_cleanup. cbn -[truthy filter].
  destruct (eff_intervalId (world s)) as [id|] eqn:He; cbn -[truthy filter];
    rewrite Hm, Htruthy; cbn -[filter]; repeat split; trivial; rewrite Hlive;
    unfold live_timer; rewrite He; [now rewrite filter_live_timer | reflexivity].
Qed.

Lemma render_gauge (s : State) : gauge_agrees s -> gauge_agrees (render s).
Proof.
  intros H. unfold render, effect_body, effect_cleanup, gauge_agrees in *.
  break_ifs; simpl; auto.
Qed.

Lemma step_gauge (e : Event) (s s' : State) :
  rendered s -> gauge_agrees s -> step host e s = Some s' -> gauge_agrees s'.
Proof.
  intros Hr Hg. pose proof Hr as (_ & Hd & _).
  destruct e as [v | v | | id | k o | k o | k o]; cbn [step].
  - intros [= <-]. apply render_gauge. exact Hg.
  - intros [= <-]. apply render_gauge. exact Hg.
  - destruct (isMining (hooks s)) eqn:Hm; cbn [negb andb]; [discriminate|].
    destruct (truthy (JStr (jobId (hooks s)))) eqn:Hj; [|discriminate].
    intros [= <-]. unfold startMining. rewrite Hj. cbn -[truthy]. unfold render.
    assert (deps_eqb (true, jobId (hooks s)) (eff_deps (world s)) = false) as Hdiff.
    { rewrite Hd. unfold deps_of. rewrite Hm. reflexivity. }
    unfold deps_of. cbn -[truthy deps_eqb]. rewrite Hdiff.
    unfold effect_body, effect_cleanup, gauge_agrees. cbn -[truthy].
    destruct (eff_intervalId (world s)); cbn -[truthy]; rewrite Hj; cbn;
      reflexivity.
  - destruct (find _ _); [|discriminate].
    intros [= <-]. apply render_gauge. exact Hg.
  - destruct (polls (world s) !! k) as [t|]; [|discriminate].
    intros [= <-]. apply render_gauge.
    destruct o as [e | data]; [exact Hg|]. simpl.
    set (s0 := set_polls (delete k (polls (world s))) s).
    destruct (finalizes host data s0) eqn:Hf.
    + destruct (pollTick_data_final host (t_jobId t) data s0 Hf) as (Hm & _).
      intros Hm'. rewrite Hm in Hm'. discriminate.
    + destruct (pollTick_data_not_final host (t_jobId t) data s0 Hf)
        as (Hm & _).
      unfold gauge_agrees. rewrite Hm, pollTick_data_progress, Hf.
      rewrite pollTick_data_eq. unfold finalizes in Hf.
      destruct (truthy data); [|exact Hg].
      intros Hmining.
      assert (Hrec : match pollIntervalRef (refs s0) with
                     | Some id0 =>
                         if completed host data
                         then finalize_from_poll host (t_jobId t) data id0
                                (reconcile host data s0)
                         else reconcile host data s0
                     | None => reconcile host data s0
                     end = reconcile host data s0).
      { destruct (pollIntervalRef (refs s0)); [|reflexivity].
        destruct (completed host data); [discriminate | reflexivity]. }
      rewrite Hrec, reconcile_refs. simpl. now rewrite (Hg Hmining).
  - destruct (posts (world s) !! k) as [c|]; [|discriminate].
    intros [= <-]. apply render_gauge. intros Hm.
    rewrite start_ends_idle in Hm. discriminate.
  - destruct (fetches (world s) !! k) as [u|]; [|discriminate].
    intros [= <-]. apply render_gauge.
    destruct o as [e | r]; simpl; [exact Hg|].
    destruct (selected_job host u r); exact Hg.
Qed.

(** X16.  While a run is under way the progress on display is the maximum
    kept in [maxProgressSeenRef]: the tolerance of the message and phase
    updates is measured against what the user sees. *)
Theorem displayed_progress_is_max_seen (s : State) :
  reachable host s ->
  isMining (hooks s) = true ->
  miningProgress (hooks s) = maxProgressSeenRef (refs s)
  /\ forall data,
       gate host data s
       = num_ge (clamped_progress host data)
                (num_sub (miningProgress (hooks s)) half).
Proof.
  intros (u & es & Hrun) Hm.
  assert (Hgen : forall es s0 s1, rendered s0 -> gauge_agrees s0 ->
            run host es s0 = Some s1 -> gauge_agrees s1).
  { clear. intros es. induction es as [|e es IH]; simpl; intros s0 s1 Hr Hg.
    - now intros [= <-].
    - destruct (step host e s0) as [s2|] eqn:E; [|discriminate].
      apply IH; [now apply (step_rendered host e s0) | now apply (step_gauge e s0)]. }
  assert (Hg : gauge_agrees s).
  { apply (Hgen es (init u) s (init_rendered u)); [|exact Hrun].
    intros Hi. discriminate. }
  split; [exact (Hg Hm)|]. intros data. unfold gate. now rewrite (Hg Hm).
Qed.

End MoreInvariants.

Section StartAnswers.

Variable host : Host.

(** X18.  The answer to a start request, of whatever run and whether it
    resolves or rejects, ends the run under way: after it the component is
    not mining, no interval is alive and [pollIntervalRef.current] is
    null. *)
Theorem start_answer_ends_the_run (s s' : State) (k : nat) (o : Outcome) :
  reachable host s ->
  step host (PostEnds k o) s = Some s' ->
  isMining (hooks s') = false
  /\ timers (world s') = []
  /\ pollIntervalRef (refs s') = None
  /\ posts (world s') = delete k (posts (world s)).
Proof.
  intros Hreach Hstep.
  pose proof (reachable_rendered host s Hreach) as Hr.
  pose proof (step_rendered host _ _ _ Hr Hstep) as Hr'.
  assert (Hm : isMining (hooks s') = false /\ posts (world s') = delete k (posts (world s))).
  { revert Hstep. cbn [step].
    destruct (posts (world s) !! k) as [c|]; [|discriminate].
    intros [= <-].
    match goal with
    | |- context [render ?x] =>
        destruct (render_frame x) as (_ & _ & -> & _ & _ & _ & _ & _ & _ & -> & _)
    end.
    split; [apply start_ends_idle|].
    destruct o as [e | data].
    - unfold startMining_rejected, startMining_finally. break_ifs; reflexivity.
    - unfold startMining_resolved, startMining_rejected, startMining_finally.
      break_ifs; reflexivity. }
  destruct Hm as [Hm Hp].
  destruct (rendered_idle s' Hr' Hm) as [He Ht].
  repeat split; trivial.
  destruct Hr' as ((_ & _ & [H | H] & _) & _); [exact H | congruence].
Qed.

End StartAnswers.

(** ** The further properties at concrete inputs *)

Lemma selected_job_in_history_witness :
  exists b, b ∈ history_45s
            /\ selected_job example_host None (answer None history_45s)
               = Some (job_id b).
Proof.
  apply (selected_job_in_history example_host None (answer None history_45s)
           history_45s eq_refl).
  discriminate.
Defined.

Lemma selected_job_direct_witness :
  selected_job example_host (Some "n") (answer None history_45s) = Some "n".
Proof.
  apply (selected_job_direct example_host (Some "n") (answer None history_45s)
           history_45s (job "n" "networkx" "2024-01-01T00:00:45Z")
           eq_refl eq_refl eq_refl).
  discriminate.
Defined.

Lemma activeGraph_after_selection_witness :
  exists g, activeGraph history_45s "n" = Some g /\ g ∈ history_45s
    /\ job_id g = "n"
    /\ (forall h, h ∈ history_45s -> job_id h = "n" -> is_networkx h = true ->
          is_networkx g = true).
Proof.
  exact (activeGraph_after_selection example_host (Some "m")
           (answer None history_45s) history_45s "n" eq_refl eq_refl).
Defined.

Lemma activeGraph_isSelected_witness :
  isSelected history_45s "n" (job "n" "networkx" "2024-01-01T00:00:45Z") = true.
Proof.
  exact (proj1 (activeGraph_isSelected history_45s "n")
           (job "n" "networkx" "2024-01-01T00:00:45Z") eq_refl).
Defined.

Lemma isSelected_rule_witness :
  job_id (job "m" "mork" "2024-01-01T00:00:00Z") = "m"
  /\ (isNetworkX (job "m" "mork" "2024-01-01T00:00:00Z") = false ->
      forall h, h ∈ history_45s ->
        job_id h = job_id (job "m" "mork" "2024-01-01T00:00:00Z") ->
        isNetworkX h = false).
Proof.
  exact (isSelected_rule history_45s "m"
           (job "m" "mork" "2024-01-01T00:00:00Z") eq_refl).
Defined.

Lemma colorMapping_ranks_witness :
  (forall t, t ∈ node_types <-> is_Some (node_colors !! t))
  /\ (forall i t, uniqueNodeTypes node_types !! i = Some t ->
        node_colors !! t = colorMapping_map !! (i mod 15)%nat)
  /\ (forall t, head node_types = Some t -> node_colors !! t = Some "#EF4444").
Proof.
  apply (colorMapping_ranks node_types node_colors).
  vm_compute. reflexivity.
Defined.

Lemma colorMapping_distinct_witness :
  (length (uniqueNodeTypes node_types) <= 15)%nat
  /\ (forall t1 t2, t1 ∈ node_types -> t2 ∈ node_types ->
        node_colors !! t1 = node_colors !! t2 -> t1 = t2).
Proof.
  assert (Hm : colorMapping (Some node_types) = Some node_colors)
    by (vm_compute; reflexivity).
  assert (Hlen : (length (uniqueNodeTypes node_types) <= 15)%nat)
    by (vm_compute; lia).
  split; [exact Hlen|].
  exact (proj1 (colorMapping_distinct node_types node_colors Hm) Hlen).
Defined.

Lemma selected_job_stable_witness :
  selected_job example_host (Some "n")
    {| selected_job_id := Some "m"; history := Some history_45s |}
  = Some "n".
Proof.
  apply (selected_job_stable example_host (Some "m") (Some "m")
           (answer None history_45s) history_45s "n" eq_refl).
  - apply (bool_decide_unpack _). vm_compute. reflexivity.
  - reflexivity.
  - discriminate.
Defined.

Lemma progress_never_regresses_witness :
  in_range (miningProgress (hooks
     (ticks example_host "j" [snapshot 40 "running" "a" JUndefined]
        (after started))))
  /\ in_range (miningProgress (hooks
        (ticks example_host "j"
           ([snapshot 40 "running" "a" JUndefined]
            ++ [snapshot 25 "running" "b" JUndefined]) (after started))))
  /\ num_le
       (miningProgress (hooks
          (ticks example_host "j" [snapshot 40 "running" "a" JUndefined]
             (after started))))
       (miningProgress (hooks
          (ticks example_host "j"
             ([snapshot 40 "running" "a" JUndefined]
              ++ [snapshot 25 "running" "b" JUndefined]) (after started))))
     = true.
Proof.
  apply (progress_never_regresses example_host "j"
           [snapshot 40 "running" "a" JUndefined]
           [snapshot 25 "running" "b" JUndefined] (after started)).
  - split; vm_compute; reflexivity.
  - repeat constructor; vm_compute; discriminate.
Defined.

Lemma phase_counter_never_goes_back_witness :
  phaseDetail (hooks (after sampled)) = Some sampling_3_of_10
  /\ phaseDetail (hooks (pollTick_data example_host "j" sampling_2_of_10
                           (after sampled)))
     = Some sampling_3_of_10
  /\ num_lt (current sampling_3_of_10) (current sampling_3_of_10) = false.
Proof.
  assert (H1 : phaseDetail (hooks (after sampled)) = Some sampling_3_of_10)
    by (vm_compute; reflexivity).
  assert (H2 : phaseDetail (hooks (pollTick_data example_host "j" sampling_2_of_10
                                     (after sampled)))
               = Some sampling_3_of_10)
    by (vm_compute; reflexivity).
  split; [exact H1 | split; [exact H2|]].
  exact (phase_counter_never_goes_back example_host "j" sampling_2_of_10
           (after sampled) sampling_3_of_10 sampling_3_of_10 H1 H2 eq_refl).
Defined.

Lemma idle_tick_cannot_finalize_witness :
  isMining (hooks (after (finished_with_poll_in_flight
                          ++ [PollEnds 0 completion_again]))) = false
  /\ miningResult (hooks (after (finished_with_poll_in_flight
                                 ++ [PollEnds 0 completion_again])))
     = miningResult (hooks (after finished_with_poll_in_flight))
  /\ toasts (world (after (finished_with_poll_in_flight
                           ++ [PollEnds 0 completion_again])))
     = toasts (world (after finished_with_poll_in_flight))
  /\ requests (world (after (finished_with_poll_in_flight
                             ++ [PollEnds 0 completion_again])))
     = requests (world (after finished_with_poll_in_flight))
  /\ timers (world (after (finished_with_poll_in_flight
                           ++ [PollEnds 0 completion_again]))) = [].
Proof.
  assert (Hrun : run example_host finished_with_poll_in_flight (init (Some "j"))
                 = Some (after finished_with_poll_in_flight))
    by (vm_compute; reflexivity).
  apply (idle_tick_cannot_finalize example_host
           (after finished_with_poll_in_flight)
           (after (finished_with_poll_in_flight ++ [PollEnds 0 completion_again]))
           0%nat completion_again (after_reachable _ _ Hrun));
    vm_compute; reflexivity.
Defined.

Lemma single_poller_witness :
  exists id, timers (world (after started))
             = [ {| t_timer := id; t_jobId := jobId (hooks (after started)) |} ].
Proof.
  assert (Hrun : run example_host started (init (Some "j")) = Some (after started))
    by (vm_compute; reflexivity).
  apply (proj1 (proj2 (single_poller example_host (after started)
                         (after_reachable started _ Hrun)))).
  - vm_compute. reflexivity.
  - vm_compute. discriminate.
Defined.

Lemma requests_match_events_witness :
  count_posts (requests (world (after second_run)))
  = (count_posts (requests (world (init (Some "j")))) + count_clicks second_run)%nat
  /\ count_gets (requests (world (after second_run)))
     = (count_gets (requests (world (init (Some "j")))) + count_fires second_run)%nat.
Proof.
  apply (requests_match_events example_host second_run (init (Some "j"))
           (after second_run)).
  vm_compute. reflexivity.
Defined.

Lemma job_change_restarts_polling_witness :
  jobId (hooks (after history_answered)) = "n"
  /\ isMining (hooks (after history_answered)) = true
  /\ timers (world (after history_answered))
     = [ {| t_timer := nextTimer (world (after started)); t_jobId := "n" |} ]
  /\ pollIntervalRef (refs (after history_answered))
     = Some (nextTimer (world (after started)))
  /\ miningProgress (hooks (after history_answered)) = zero
  /\ maxProgressSeenRef (refs (after history_answered)) = zero
  /\ miningStatus (hooks (after history_answered)) = JStr "Starting miner..."
  /\ phaseDetail (hooks (after history_answered)) = None
  /\ requests (world (after history_answered)) = requests (world (after started))
  /\ posts (world (after history_answered)) = posts (world (after started)).
Proof.
  assert (Hrun : run example_host started (init (Some "j")) = Some (after started))
    by (vm_compute; reflexivity).
  apply (job_change_restarts_polling example_host (after started)
           (after history_answered)
           0%nat (Some "j") (answer None history_45s) "n"
           (after_reachable started _ Hrun));
    try (vm_compute; reflexivity); vm_compute; discriminate.
Defined.

Lemma start_response_without_fields_witness :
  miningResult (hooks (startMining_resolved example_host
                         {| c_jobId := "j"; c_pollInterval := None |}
                         (JObj ∅) (after started)))
  = miningResult (hooks (pollTick_data example_host "j"
                           (snapshot 100 "completed" "done" JUndefined)
                           (after started))).
Proof.
  apply (start_response_without_fields example_host
           {| c_jobId := "j"; c_pollInterval := None |} (JObj ∅) JUndefined
           (after started) (snapshot 100 "completed" "done" JUndefined)
           (after started));
    vm_compute; reflexivity.
Defined.

Lemma displayed_progress_is_max_seen_witness :
  miningProgress (hooks (after halfway)) = maxProgressSeenRef (refs (after halfway))
  /\ forall data,
       gate example_host data (after halfway)
       = num_ge (clamped_progress example_host data)
                (num_sub (miningProgress (hooks (after halfway))) half).
Proof.
  assert (Hrun : run example_host halfway (init (Some "j")) = Some (after halfway))
    by (vm_compute; reflexivity).
  apply (displayed_progress_is_max_seen example_host (after halfway)
           (after_reachable halfway _ Hrun)).
  vm_compute. reflexivity.
Defined.

Lemma start_answer_ends_the_run_witness :
  isMining (hooks (after restarted)) = true
  /\ isMining (hooks (after restarted_then_first_answer)) = false
  /\ timers (world (after restarted_then_first_answer)) = []
  /\ pollIntervalRef (refs (after restarted_then_first_answer)) = None
  /\ posts (world (after restarted_then_first_answer))
     = delete 0%nat (posts (world (after restarted))).
Proof.
  assert (Hrun : run example_host restarted (init (Some "j"))
                 = Some (after restarted))
    by (vm_compute; reflexivity).
  split; [vm_compute; reflexivity|].
  apply (start_answer_ends_the_run example_host (after restarted)
           (after restarted_then_first_answer) 0%nat
           (Resolved start_response) (after_reachable _ _ Hrun)).
  vm_compute. reflexivity.
Defined.
